(** * dbt schema tester: a shallow embedding of [dbt/schema_tester.py]

    The module is Python 2 code: the orchestrator reads [e.message] on a
    caught exception (line 169), an attribute every [BaseException] carries
    in Python 2, and [NotImplementedError] derives from [RuntimeError].
    Strings are byte strings, dictionaries are association lists in their
    iteration order, and a generator is the trace of the effects it performs
    when it is consumed to the end: the lines it prints, the statements it
    sends to the warehouse and the models it yields, with the exception that
    ends it, if any.

    The project, the compiler and the target of [dbt.runner] are taken as
    given: a target configuration, an [enabled] flag per model, and a cursor
    that answers a statement by raising, by a row or by no row.  The entries
    of a constraint's payload are strings or flat dictionaries of strings.
    The meaning of the three statements is given in [SQL], over columns of
    nullable integers. *)

From Stdlib Require Import String List ZArith Ascii Bool Arith Lia DecimalString Permutation.
Import ListNotations.
Open Scope string_scope.
Open Scope list_scope.

Infix "+++" := String.append (at level 60, right associativity).

(** ** Python strings: [str], [repr] and [str.format] *)

Module PyStr.

Definition str_of_Z (z : Z) : string := NilZero.string_of_int (Z.to_int z).
Definition str_of_nat (n : nat) : string := NilZero.string_of_uint (Nat.to_uint n).

Fixpoint contains (c : ascii) (s : string) : bool :=
  match s with
  | EmptyString => false
  | String d s' => Ascii.eqb c d || contains c s'
  end.

Definition hex_digit (n : nat) : ascii :=
  match n with
  | 0 => "0" | 1 => "1" | 2 => "2" | 3 => "3" | 4 => "4" | 5 => "5"
  | 6 => "6" | 7 => "7" | 8 => "8" | 9 => "9" | 10 => "a" | 11 => "b"
  | 12 => "c" | 13 => "d" | 14 => "e" | _ => "f"
  end%char.

Definition backslash : ascii := ascii_of_nat 92.
Definition squote : ascii := ascii_of_nat 39.
Definition dquote : ascii := ascii_of_nat 34.

(** One character of [repr(s)] for a Python 2 byte string, [q] being the
    quote character chosen for the whole literal. *)
Definition repr_char (q c : ascii) : string :=
  let n := nat_of_ascii c in
  if Ascii.eqb c q || Ascii.eqb c backslash then String backslash (String c EmptyString)
  else if (n =? 9)%nat then String backslash "t"
  else if (n =? 10)%nat then String backslash "n"
  else if (n =? 13)%nat then String backslash "r"
  else if (n <? 32)%nat || (127 <=? n)%nat then
    String backslash (String "x" (String (hex_digit (n / 16)) (String (hex_digit (n mod 16)) EmptyString)))
  else String c EmptyString.

Fixpoint repr_body (q : ascii) (s : string) : string :=
  match s with
  | EmptyString => EmptyString
  | String c s' => repr_char q c +++ repr_body q s'
  end.

(** [repr(s)]: single quotes, unless the string holds a single quote and no
    double quote. *)
Definition repr (s : string) : string :=
  let q := if contains squote s && negb (contains dquote s) then dquote else squote in
  String q (repr_body q s +++ String q EmptyString).

(** [str((a, b))] of a pair of strings. *)
Definition str_of_pair (p : string * string) : string :=
  "(" +++ repr (fst p) +++ ", " +++ repr (snd p) +++ ")".

(** [str(d)] of a dictionary of strings, entries in iteration order. *)
Fixpoint repr_items (d : list (string * string)) : string :=
  match d with
  | [] => EmptyString
  | [(k, v)] => repr k +++ ": " +++ repr v
  | (k, v) :: d' => repr k +++ ": " +++ repr v +++ ", " +++ repr_items d'
  end.

Definition str_of_dict (d : list (string * string)) : string :=
  "{" +++ repr_items d +++ "}".

End PyStr.

(** ** Exceptions *)

(** The Python 2 built-in classes the module meets, and classes derived from
    them (a database driver's errors). *)
Inductive exc_class : Type :=
| BaseException
| Exception
| StandardError
| RuntimeError
| NotImplementedError
| TypeError
| ValueError
| LookupError
| KeyError
| IndexError
| Subclass (name : string) (base : exc_class).

Fixpoint exc_class_eqb (c d : exc_class) : bool :=
  match c, d with
  | BaseException, BaseException | Exception, Exception
  | StandardError, StandardError | RuntimeError, RuntimeError
  | NotImplementedError, NotImplementedError | TypeError, TypeError
  | ValueError, ValueError | LookupError, LookupError
  | KeyError, KeyError | IndexError, IndexError => true
  | Subclass n b, Subclass n' b' => String.eqb n n' && exc_class_eqb b b'
  | _, _ => false
  end.

(** The class and its bases, most derived first. *)
Fixpoint mro (c : exc_class) : list exc_class :=
  match c with
  | BaseException => [BaseException]
  | Exception => [Exception; BaseException]
  | StandardError => [StandardError; Exception; BaseException]
  | RuntimeError => [RuntimeError; StandardError; Exception; BaseException]
  | NotImplementedError =>
      [NotImplementedError; RuntimeError; StandardError; Exception; BaseException]
  | TypeError => [TypeError; StandardError; Exception; BaseException]
  | ValueError => [ValueError; StandardError; Exception; BaseException]
  | LookupError => [LookupError; StandardError; Exception; BaseException]
  | KeyError => [KeyError; LookupError; StandardError; Exception; BaseException]
  | IndexError => [IndexError; LookupError; StandardError; Exception; BaseException]
  | Subclass _ b => c :: mro b
  end.

Definition issubclass (c d : exc_class) : bool := existsb (exc_class_eqb d) (mro c).

Definition ModelIdentifier : Type := (string * string)%type.

(** An exception value: its class, the [message] attribute and the [model]
    attribute that [execute_query] attaches. *)
Record exn : Type := mkExn {
  exn_class : exc_class;
  message : string;
  exn_model : option ModelIdentifier
}.

Definition new_exn (c : exc_class) (msg : string) : exn := mkExn c msg None.

Definition isinstance (e : exn) (c : exc_class) : bool := issubclass (exn_class e) c.

(** [e.model = model] *)
Definition set_model (e : exn) (model : ModelIdentifier) : exn :=
  mkExn (exn_class e) (message e) (Some model).

(** ** Effects: output lines, statements sent to the warehouse, yields *)

Inductive event : Type :=
| Print (line : string)
| Execute (sql : string)
| Yield (model : ModelIdentifier).

Inductive outcome (A : Type) : Type :=
| Return (a : A)
| Raise (e : exn).
Arguments Return {A} a.
Arguments Raise {A} e.

Definition M (A : Type) : Type := (list event * outcome A)%type.

Definition ret {A} (a : A) : M A := ([], Return a).
Definition raise {A} (e : exn) : M A := ([], Raise e).
Definition emit (ev : event) : M unit := ([ev], Return tt).
Definition print (line : string) : M unit := emit (Print line).
Definition yield (model : ModelIdentifier) : M unit := emit (Yield model).

Definition bind {A B} (m : M A) (k : A -> M B) : M B :=
  match m with
  | (tr, Return a) => let (tr', r) := k a in (tr ++ tr', r)
  | (tr, Raise e) => (tr, Raise e)
  end.

(** [try: m  except cls as e: h e] *)
Definition try_except {A} (m : M A) (cls : exc_class) (h : exn -> M A) : M A :=
  match m with
  | (tr, Return a) => (tr, Return a)
  | (tr, Raise e) =>
      if isinstance e cls then let (tr', r) := h e in (tr ++ tr', r)
      else (tr, Raise e)
  end.

Notation "x <- m ;; k" := (bind m (fun x => k))
  (at level 61, m at next level, right associativity).
Notation "m ;; k" := (bind m (fun _ => k))
  (at level 61, right associativity).

(** [for x in l: body x]; an exception raised by the body ends the loop. *)
Fixpoint for_each {A} (l : list A) (body : A -> M unit) : M unit :=
  match l with
  | [] => ret tt
  | x :: l' => body x ;; for_each l' body
  end.

Definition trace {A} (m : M A) : list event := fst m.
Definition result {A} (m : M A) : outcome A := snd m.

(** ** [str.format] with keyword arguments *)

Module Format.

Inductive piece : Type :=
| Lit (c : ascii)
| Field (name : string).

Definition lbrace : ascii := ascii_of_nat 123.
Definition rbrace : ascii := ascii_of_nat 125.

(** Splits a format string into literal characters and replacement fields.
    [field] holds the name read so far while inside braces.  Doubled braces
    are literal braces.  The replacement fields of the module's templates
    are plain names, so conversions and format specifications are not
    interpreted: whatever stands between the braces is the key. *)
Fixpoint parse (s : string) (field : option string) : outcome (list piece) :=
  match s, field with
  | EmptyString, None => Return []
  | EmptyString, Some _ => Raise (new_exn ValueError "unmatched '{' in format")
  | String c s', Some name =>
      if Ascii.eqb c rbrace then
        match parse s' None with
        | Return ps => Return (Field name :: ps)
        | Raise e => Raise e
        end
      else parse s' (Some (name +++ String c EmptyString))
  | String c s', None =>
      if Ascii.eqb c lbrace then
        match s' with
        | String d s'' =>
            if Ascii.eqb d lbrace then
              match parse s'' None with
              | Return ps => Return (Lit lbrace :: ps)
              | Raise e => Raise e
              end
            else parse s' (Some EmptyString)
        | EmptyString => Raise (new_exn ValueError "Single '{' encountered in format string")
        end
      else if Ascii.eqb c rbrace then
        match s' with
        | String d s'' =>
            if Ascii.eqb d rbrace then
              match parse s'' None with
              | Return ps => Return (Lit rbrace :: ps)
              | Raise e => Raise e
              end
            else Raise (new_exn ValueError "Single '}' encountered in format string")
        | EmptyString => Raise (new_exn ValueError "Single '}' encountered in format string")
        end
      else
        match parse s' None with
        | Return ps => Return (Lit c :: ps)
        | Raise e => Raise e
        end
  end.

Fixpoint lookup (k : string) (d : list (string * string)) : option string :=
  match d with
  | [] => None
  | (k', v) :: d' => if String.eqb k k' then Some v else lookup k d'
  end.

Fixpoint render (ps : list piece) (params : list (string * string)) : outcome string :=
  match ps with
  | [] => Return EmptyString
  | Lit c :: ps' =>
      match render ps' params with
      | Return s => Return (String c s)
      | Raise e => Raise e
      end
  | Field name :: ps' =>
      match name with
      | EmptyString => Raise (new_exn IndexError "tuple index out of range")
      | _ =>
          match lookup name params with
          | None => Raise (new_exn KeyError name)
          | Some v =>
              match render ps' params with
              | Return s => Return (v +++ s)
              | Raise e => Raise e
              end
          end
      end
  end.

(** [template.format( **params )] *)
Definition format (template : string) (params : list (string * string)) : outcome string :=
  match parse template None with
  | Return ps => render ps params
  | Raise e => Raise e
  end.

End Format.

(** ** The three statement templates (lines 6-34) *)

Definition nl : string := String (ascii_of_nat 10) EmptyString.
Definition dq : string := String PyStr.dquote EmptyString.

Definition QUERY_VALIDATE_NOT_NULL : string := Eval vm_compute in
  nl +++
  "with validation as (" +++ nl +++
  "  select " +++ dq +++ "{field}" +++ dq +++ " as f" +++ nl +++
  "  from " +++ dq +++ "{schema}" +++ dq +++ "." +++ dq +++ "{table}" +++ dq +++ nl +++
  ")" +++ nl +++
  "select count(*) from validation where f is null" +++ nl.

Definition QUERY_VALIDATE_UNIQUE : string := Eval vm_compute in
  nl +++
  "with validation as (" +++ nl +++
  "  select " +++ dq +++ "{field}" +++ dq +++ " as f" +++ nl +++
  "  from " +++ dq +++ "{schema}" +++ dq +++ "." +++ dq +++ "{table}" +++ dq +++ nl +++
  ")" +++ nl +++
  "select count(*) from (" +++ nl +++
  "  select f from validation group by f having count(*) > 1" +++ nl +++
  ")" +++ nl.

Definition QUERY_VALIDATE_REFERENTIAL_INTEGRITY : string := Eval vm_compute in
  nl +++
  "with parent as (" +++ nl +++
  "  select " +++ dq +++ "{parent_field}" +++ dq +++ " as id" +++ nl +++
  "  from " +++ dq +++ "{schema}" +++ dq +++ "." +++ dq +++ "{parent_table}" +++ dq +++ nl +++
  "), child as (" +++ nl +++
  "  select " +++ dq +++ "{child_field}" +++ dq +++ " as id" +++ nl +++
  "  from " +++ dq +++ "{schema}" +++ dq +++ "." +++ dq +++ "{child_table}" +++ dq +++ nl +++
  ")" +++ nl +++
  "select count(*) from child" +++ nl +++
  "where id not in (select id from parent) and id is not null" +++ nl.

(** ** The collaborators of [SchemaTester] *)

(** [self.project.run_environment()] *)
Record TargetConfig : Type := mkTargetConfig {
  cfg_type : string;
  cfg_schema : string
}.

(** What [dbt.runner.RedshiftTarget] gives [execute_query]: acquiring the
    handle and its cursor either succeeds or raises; [cursor.execute(sql)]
    either succeeds or raises; [cursor.fetchone()] is a row or [None].  The
    warehouse is a snapshot: the same statement gets the same answer
    throughout a run. *)
Record RedshiftTarget : Type := mkRedshiftTarget {
  get_handle : option exn;
  cursor_execute : string -> option exn;
  cursor_fetchone : string -> option (list Z)
}.

Record SchemaTester : Type := mkSchemaTester {
  run_environment : TargetConfig;
  target : RedshiftTarget
}.

(** [compiler.get_model_config(group, name)['enabled']] *)
Record Compiler : Type := mkCompiler {
  enabled : string -> string -> bool
}.

(** An entry of a constraint's payload as the schema file gives it: a field
    name or a reference descriptor. *)
Inductive entry : Type :=
| EStr (s : string)
| EDict (d : list (string * string)).

Definition str_of_entry (x : entry) : string :=
  match x with
  | EStr s => s
  | EDict d => PyStr.str_of_dict d
  end.

(** [reference[key]] *)
Definition getitem (x : entry) (key : string) : M string :=
  match x with
  | EDict d =>
      match Format.lookup key d with
      | Some v => ret v
      | None => raise (new_exn KeyError key)
      end
  | EStr _ => raise (new_exn TypeError "string indices must be integers, not str")
  end.

(** [schema_info['constraints'].items()] *)
Definition constraints : Type := list (string * list entry).
(** [schemas]: model group, then model name, then the model's constraints *)
Definition schemas_t : Type := list (string * list (string * constraints)).

(** ** [SchemaTester] (lines 58-169) *)

Definition lift {A} (o : outcome A) : M A := ([], o).

Definition get_query_params (self : SchemaTester) (table : string) (field : entry)
  : list (string * string) :=
  let target_cfg := run_environment self in
  let schema := cfg_schema target_cfg in
  [("schema", schema); ("table", table); ("field", str_of_entry field)].

Definition make_query (query : string) (params : list (string * string)) : M string :=
  lift (Format.format query params).

Definition get_target (self : SchemaTester) : M RedshiftTarget :=
  let target_cfg := run_environment self in
  if String.eqb (cfg_type target_cfg) "redshift" then ret (target self)
  else raise (new_exn NotImplementedError
                ("Unknown target type '" +++ cfg_type target_cfg +++ "'")).

Definition execute_query (self : SchemaTester) (model : ModelIdentifier) (sql : string) : M Z :=
  target <- get_target self ;;
  match get_handle target with
  | Some e => raise e
  | None =>
      emit (Execute sql) ;;
      match cursor_execute target sql with
      | Some e =>
          if isinstance e Exception then raise (set_model e model) else raise e
      | None =>
          match cursor_fetchone target sql with
          | None => raise (new_exn TypeError "object of type 'NoneType' has no len()")
          | Some result =>
              if negb (length result =? 1)%nat then
                print ("SQL: " +++ sql) ;;
                print "RESULT:" ;;
                raise (new_exn RuntimeError
                         ("Unexpected validation result. Expected 1 record, got "
                          +++ PyStr.str_of_nat (length result)))
              else ret (nth 0 result 0%Z)
          end
      end
  end.

(** The two closing lines of every handler's loop body. *)
Definition report (num_rows : Z) : M unit :=
  if (num_rows =? 0)%Z then print "  OK"
  else print ("  FAILED (" +++ PyStr.str_of_Z num_rows +++ ")").

Definition validate_not_null (self : SchemaTester) (model : ModelIdentifier)
    (constraint_data : list entry) : M unit :=
  let table := snd model in
  for_each constraint_data (fun field =>
    let params := get_query_params self table field in
    sql <- make_query QUERY_VALIDATE_NOT_NULL params ;;
    print ("VALIDATE NOT NULL " +++ dq +++ table +++ dq +++ "."
           +++ dq +++ str_of_entry field +++ dq) ;;
    num_rows <- execute_query self model sql ;;
    report num_rows).

Definition validate_unique (self : SchemaTester) (model : ModelIdentifier)
    (constraint_data : list entry) : M unit :=
  let table := snd model in
  for_each constraint_data (fun field =>
    let params := get_query_params self table field in
    sql <- make_query QUERY_VALIDATE_UNIQUE params ;;
    print ("VALIDATE UNIQUE " +++ dq +++ table +++ dq +++ "."
           +++ dq +++ str_of_entry field +++ dq) ;;
    num_rows <- execute_query self model sql ;;
    report num_rows).

(** The [params] dictionary of [validate_relationships] (lines 124-130). *)
Definition relationships_params (self : SchemaTester) (table : string) (reference : entry)
  : M (list (string * string)) :=
  let target_cfg := run_environment self in
  r_from <- getitem reference "from" ;;
  r_to <- getitem reference "to" ;;
  r_field <- getitem reference "field" ;;
  ret [("schema", cfg_schema target_cfg);
       ("parent_table", table);
       ("parent_field", r_from);
       ("child_table", r_to);
       ("child_field", r_field)].

Definition validate_relationships (self : SchemaTester) (model : ModelIdentifier)
    (constraint_data : list entry) : M unit :=
  let table := snd model in
  for_each constraint_data (fun reference =>
    params <- relationships_params self table reference ;;
    sql <- make_query QUERY_VALIDATE_REFERENTIAL_INTEGRITY params ;;
    r_from <- getitem reference "from" ;;
    r_to <- getitem reference "to" ;;
    r_field <- getitem reference "field" ;;
    print ("VALIDATE REFERENTIAL INTEGRITY " +++ dq +++ table +++ dq +++ "."
           +++ dq +++ r_from +++ dq +++ " to " +++ dq +++ r_to +++ dq +++ "."
           +++ dq +++ r_field +++ dq) ;;
    num_rows <- execute_query self model sql ;;
    report num_rows).

Definition validator : Type := SchemaTester -> ModelIdentifier -> list entry -> M unit.

Definition constraint_map : list (string * validator) :=
  [("not_null", validate_not_null);
   ("unique", validate_unique);
   ("relationships", validate_relationships)].

Fixpoint constraint_map_get (constraint_type : string) (m : list (string * validator))
  : option validator :=
  match m with
  | [] => None
  | (k, v) :: m' =>
      if String.eqb constraint_type k then Some v else constraint_map_get constraint_type m'
  end.

Definition validate_schema_constraint (self : SchemaTester) (model : ModelIdentifier)
    (constraint_type : string) (constraint_data : list entry) : M unit :=
  match constraint_map_get constraint_type constraint_map with
  | Some validator => validator self model constraint_data
  | None =>
      raise (new_exn RuntimeError
               ("Invalid constraint '" +++ constraint_type +++ "' specified for '"
                +++ PyStr.str_of_pair model +++ "' in schema.yml"))
  end.

(** The generator [validate_schema]; [continue] ends the body of the loop
    over the models. *)
Definition validate_schema (self : SchemaTester) (schemas : schemas_t) (compiler : Compiler)
  : M unit :=
  for_each schemas (fun '(model_group, model_schemas) =>
    for_each model_schemas (fun '(model_name, schema_info) =>
      let model := (model_group, model_name) in
      if negb (enabled compiler model_group model_name) then ret tt
      else
        let constraints := schema_info in
        for_each constraints (fun '(constraint_type, constraint_data) =>
          try_except
            (validate_schema_constraint self model constraint_type constraint_data ;;
             yield model)
            RuntimeError
            (fun e => print ("ERRROR: " +++ message e))))).

(** ** What the three statements compute

    The statements are SQL text; their meaning is given here operator by
    operator, with SQL's three-valued logic for comparisons with NULL. *)

Module SQL.

(** A column value; [None] is NULL. *)
Definition value : Type := option Z.

Inductive tv : Type := TTrue | TFalse | TUnknown.

Definition not3 (a : tv) : tv :=
  match a with TTrue => TFalse | TFalse => TTrue | TUnknown => TUnknown end.

Definition and3 (a b : tv) : tv :=
  match a, b with
  | TFalse, _ | _, TFalse => TFalse
  | TTrue, TTrue => TTrue
  | _, _ => TUnknown
  end.

Definition or3 (a b : tv) : tv :=
  match a, b with
  | TTrue, _ | _, TTrue => TTrue
  | TFalse, TFalse => TFalse
  | _, _ => TUnknown
  end.

(** [a = b] *)
Definition eq3 (a b : value) : tv :=
  match a, b with
  | Some x, Some y => if (x =? y)%Z then TTrue else TFalse
  | _, _ => TUnknown
  end.

(** [a in (select ...)]: the disjunction of the comparisons with every row
    of the subquery, false on an empty subquery. *)
Fixpoint in3 (a : value) (rows : list value) : tv :=
  match rows with
  | [] => TFalse
  | b :: rows' => or3 (eq3 a b) (in3 a rows')
  end.

Definition is_null (a : value) : tv :=
  match a with None => TTrue | Some _ => TFalse end.

Definition is_not_null (a : value) : tv := not3 (is_null a).

(** [where p]: the rows on which [p] is true (neither false nor unknown). *)
Definition where_ (p : value -> tv) (rows : list value) : list value :=
  filter (fun r => match p r with TTrue => true | _ => false end) rows.

(** [count( * )] *)
Definition count_star {A} (rows : list A) : Z := Z.of_nat (length rows).

(** Grouping keys: NULLs fall into one group. *)
Definition same_key (a b : value) : bool :=
  match a, b with
  | None, None => true
  | Some x, Some y => (x =? y)%Z
  | _, _ => false
  end.

Fixpoint insert_group (r : value) (gs : list (value * list value)) : list (value * list value) :=
  match gs with
  | [] => [(r, [r])]
  | (k, g) :: gs' =>
      if same_key k r then (k, r :: g) :: gs' else (k, g) :: insert_group r gs'
  end.

(** [group by f]: every group with its key and its rows. *)
Fixpoint group_by (rows : list value) : list (value * list value) :=
  match rows with
  | [] => []
  | r :: rows' => insert_group r (group_by rows')
  end.

(** [having p] *)
Definition having (p : list value -> bool) (gs : list (value * list value))
  : list (value * list value) :=
  filter (fun kg => p (snd kg)) gs.

(** A warehouse: the column [field] of ["schema"."table"] in row order, or
    [None] when the relation or the column does not exist. *)
Definition database : Type := string -> string -> string -> option (list value).

Definition param (params : list (string * string)) (k : string) : string :=
  match Format.lookup k params with Some v => v | None => EmptyString end.

(** [QUERY_VALIDATE_NOT_NULL] on the column [validation]. *)
Definition not_null_count (validation : list value) : Z :=
  count_star (where_ is_null validation).

(** [QUERY_VALIDATE_UNIQUE] on the column [validation]. *)
Definition unique_count (validation : list value) : Z :=
  count_star
    (map fst
       (having (fun g => (1 <? count_star g)%Z) (group_by validation))).

(** [QUERY_VALIDATE_REFERENTIAL_INTEGRITY] on the columns [parent] and
    [child]. *)
Definition referential_integrity_count (parent child : list value) : Z :=
  count_star
    (where_ (fun id => and3 (not3 (in3 id parent)) (is_not_null id)) child).

(** The statements instantiated with their parameters, run on a warehouse. *)
Definition run_not_null (db : database) (params : list (string * string)) : option Z :=
  match db (param params "schema") (param params "table") (param params "field") with
  | Some validation => Some (not_null_count validation)
  | None => None
  end.

Definition run_unique (db : database) (params : list (string * string)) : option Z :=
  match db (param params "schema") (param params "table") (param params "field") with
  | Some validation => Some (unique_count validation)
  | None => None
  end.

Definition run_referential_integrity (db : database) (params : list (string * string))
  : option Z :=
  match db (param params "schema") (param params "parent_table") (param params "parent_field"),
        db (param params "schema") (param params "child_table") (param params "child_field") with
  | Some parent, Some child => Some (referential_integrity_count parent child)
  | _, _ => None
  end.

End SQL.

(** ** Derived notions used by the statements *)

(** [m] with the events [tr] in front of its own. *)
Definition prefix {A} (tr : list event) (m : M A) : M A := (tr ++ fst m, snd m).

(** One pending constraint of an enabled model: the model, the constraint
    type and its payload. *)
Definition item : Type := (ModelIdentifier * string * list entry)%type.
Definition item_model (it : item) : ModelIdentifier := fst (fst it).

Definition dispatch (self : SchemaTester) (it : item) : M unit :=
  let '(model, constraint_type, constraint_data) := it in
  validate_schema_constraint self model constraint_type constraint_data.

(** The body of the innermost loop: the [try] statement of lines 165-169. *)
Definition guarded_dispatch (self : SchemaTester) (it : item) : M unit :=
  try_except (dispatch self it ;; yield (item_model it))
    RuntimeError
    (fun e => print ("ERRROR: " +++ message e)).

Definition run_items (self : SchemaTester) (its : list item) : M unit :=
  for_each its (guarded_dispatch self).

(** The constraints the orchestrator dispatches, in its iteration order. *)
Definition model_items (compiler : Compiler) (model_group : string)
    (ms : string * constraints) : list item :=
  if enabled compiler model_group (fst ms)
  then map (fun c => ((model_group, fst ms), fst c, snd c)) (snd ms)
  else [].

Definition work_items (compiler : Compiler) (schemas : schemas_t) : list item :=
  flat_map (fun g => flat_map (model_items compiler (fst g)) (snd g)) schemas.

Definition dispatched_ok (self : SchemaTester) (it : item) : bool :=
  match result (dispatch self it) with
  | Return _ => true
  | Raise _ => false
  end.

(** The dispatch ends with an exception the orchestrator does not catch. *)
Definition fatal (self : SchemaTester) (it : item) : bool :=
  match result (dispatch self it) with
  | Return _ => false
  | Raise e => negb (isinstance e RuntimeError)
  end.

(** The items a run gets to: all of them up to the first fatal one. *)
Fixpoint reached (self : SchemaTester) (its : list item) : list item :=
  match its with
  | [] => []
  | it :: its' => if fatal self it then [it] else it :: reached self its'
  end.

Fixpoint yields (tr : list event) : list ModelIdentifier :=
  match tr with
  | [] => []
  | Yield m :: tr' => m :: yields tr'
  | _ :: tr' => yields tr'
  end.

Fixpoint executed (tr : list event) : list string :=
  match tr with
  | [] => []
  | Execute sql :: tr' => sql :: executed tr'
  | _ :: tr' => executed tr'
  end.

Definition model_eqb (a b : ModelIdentifier) : bool :=
  String.eqb (fst a) (fst b) && String.eqb (snd a) (snd b).

(** The schema snapshot without the model [(g, n)]. *)
Definition drop_model (g n : string) (schemas : schemas_t) : schemas_t :=
  map (fun gm =>
         (fst gm,
          filter (fun ms => negb (model_eqb (fst gm, fst ms) (g, n))) (snd gm)))
      schemas.

(** The text a template gives with the parameters the handlers build. *)
Definition sql_of (template : string) (params : list (string * string)) : string :=
  match Format.format template params with
  | Return s => s
  | Raise _ => EmptyString
  end.

(** ** Spec-side counts, in the words of the specification *)

Definition value_eq_dec (a b : SQL.value) : {a = b} + {a <> b}.
Proof. decide equality. apply Z.eq_dec. Defined.

(** The number of distinct values of a column that occur more than once. *)
Definition duplicate_groups (col : list SQL.value) : nat :=
  length (filter (fun v => 1 <? count_occ value_eq_dec col v)%nat (nodup value_eq_dec col)).

(** The number of rows of a column whose value occurs more than once. *)
Definition duplicate_rows (col : list SQL.value) : nat :=
  length (filter (fun v => 1 <? count_occ value_eq_dec col v)%nat col).

Definition absent (keys : list SQL.value) (v : SQL.value) : bool :=
  negb (existsb (fun k => if value_eq_dec k v then true else false) keys).

(** The number of rows whose value is non-null and absent from [keys]. *)
Definition orphans (keys rows : list SQL.value) : nat :=
  length (filter (fun v => match v with
                           | Some _ => absent keys v
                           | None => false
                           end) rows).

(** ** Further notions and fixtures used by the statements *)

Definition reference_params (schema table r_from r_to r_field : string)
  : list (string * string) :=
  [("schema", schema); ("parent_table", table); ("parent_field", r_from);
   ("child_table", r_to); ("child_field", r_field)].

(** The target is supported and a handle and cursor can be had. *)
Definition connected (self : SchemaTester) : Prop :=
  cfg_type (run_environment self) = "redshift" /\ get_handle (target self) = None.

Definition unsupported_target (self : SchemaTester) : exn :=
  new_exn NotImplementedError
    ("Unknown target type '" +++ cfg_type (run_environment self) +++ "'").

Definition no_row_error : exn :=
  new_exn TypeError "object of type 'NoneType' has no len()".

Definition shape_error (row : list Z) : exn :=
  new_exn RuntimeError
    ("Unexpected validation result. Expected 1 record, got "
     +++ PyStr.str_of_nat (length row)).

(** The header line and the statement a handler produces for one entry of
    its payload; [None] when the constraint type has no handler or the entry
    is not a reference descriptor where one is needed. *)
Definition synthesized (self : SchemaTester) (model : ModelIdentifier)
    (constraint_type : string) (x : entry) : option (string * string) :=
  let table := snd model in
  if String.eqb constraint_type "not_null" then
    Some ("VALIDATE NOT NULL " +++ dq +++ table +++ dq +++ "."
          +++ dq +++ str_of_entry x +++ dq,
          sql_of QUERY_VALIDATE_NOT_NULL (get_query_params self table x))
  else if String.eqb constraint_type "unique" then
    Some ("VALIDATE UNIQUE " +++ dq +++ table +++ dq +++ "."
          +++ dq +++ str_of_entry x +++ dq,
          sql_of QUERY_VALIDATE_UNIQUE (get_query_params self table x))
  else if String.eqb constraint_type "relationships" then
    match x with
    | EDict d =>
        match Format.lookup "from" d, Format.lookup "to" d, Format.lookup "field" d with
        | Some r_from, Some r_to, Some r_field =>
            Some ("VALIDATE REFERENTIAL INTEGRITY " +++ dq +++ table +++ dq +++ "."
                  +++ dq +++ r_from +++ dq +++ " to " +++ dq +++ r_to +++ dq +++ "."
                  +++ dq +++ r_field +++ dq,
                  sql_of QUERY_VALIDATE_REFERENTIAL_INTEGRITY
                    (reference_params (cfg_schema (run_environment self)) table
                       r_from r_to r_field))
        | _, _, _ => None
        end
    | EStr _ => None
    end
  else None.

(** What a handler does with one entry. *)
Definition check (self : SchemaTester) (model : ModelIdentifier) (line sql : string) : M unit :=
  print line ;;
  num_rows <- execute_query self model sql ;;
  report num_rows.

Definition analytics : TargetConfig := mkTargetConfig "redshift" "analytics".
Definition people : ModelIdentifier := ("core", "people").
Definition everything_enabled : Compiler := mkCompiler (fun _ _ => true).

(** A warehouse that answers every statement with the count [n]. *)
Definition tester_counting (n : Z) : SchemaTester :=
  mkSchemaTester analytics (mkRedshiftTarget None (fun _ => None) (fun _ => Some [n])).

(** A driver error in the manner of psycopg2: derived from [StandardError],
    not from [RuntimeError]. *)
Definition ProgrammingError : exc_class :=
  Subclass "ProgrammingError" (Subclass "DatabaseError" (Subclass "Error" StandardError)).

Definition undefined_column : exn := new_exn ProgrammingError "column does not exist".

(** A warehouse on which the statements that name the field [bad] fail with
    [e] and every other statement counts no violation. *)
Definition tester_failing_on (bad : string) (e : exn) : SchemaTester :=
  mkSchemaTester analytics
    (mkRedshiftTarget None
       (fun sql =>
          if String.eqb sql (sql_of QUERY_VALIDATE_NOT_NULL
                               [("schema", "analytics"); ("table", "people"); ("field", bad)])
          then Some e else None)
       (fun _ => Some [0%Z])).

Definition invalid_constraint (model : ModelIdentifier) (constraint_type : string) : exn :=
  new_exn RuntimeError
    ("Invalid constraint '" +++ constraint_type +++ "' specified for '"
     +++ PyStr.str_of_pair model +++ "' in schema.yml").

Definition schemas_with_bogus : schemas_t :=
  [("core", [("people", [("not_a_real_constraint", [EStr "id"]);
                         ("not_null", [EStr "id"])]);
             ("accounts", [("unique", [EStr "id"])])])].

Definition schemas_two_models : schemas_t :=
  [("core", [("people", [("not_null", [EStr "id"])]);
             ("accounts", [("unique", [EStr "id"])])])].

(** A driver error that is a [RuntimeError]. *)
Definition InternalError : exc_class := Subclass "InternalError" RuntimeError.
Definition out_of_memory : exn := new_exn InternalError "out of memory".

(** A warehouse whose cursor answers every statement with the row [row]. *)
Definition tester_fetching (row : option (list Z)) : SchemaTester :=
  mkSchemaTester analytics (mkRedshiftTarget None (fun _ => None) (fun _ => row)).

(** [m] performs no effect that the observation [obs] retains. *)
Definition unobserved {X A} (obs : list event -> list X) (m : M A) : Prop :=
  obs (trace m) = [].

Definition tester_postgres : SchemaTester :=
  mkSchemaTester (mkTargetConfig "postgres" "analytics")
    (mkRedshiftTarget None (fun _ => None) (fun _ => Some [0%Z])).

Definition model_eq_dec (a b : ModelIdentifier) : {a = b} + {a <> b}.
Proof. decide equality; apply string_dec. Defined.

(** The enabled models of a snapshot with their constraints, in iteration
    order. *)
Definition enabled_models (compiler : Compiler) (schemas : schemas_t)
  : list (ModelIdentifier * constraints) :=
  flat_map (fun g =>
              flat_map (fun ms =>
                          if enabled compiler (fst g) (fst ms)
                          then [((fst g, fst ms), snd ms)] else [])
                       (snd g))
           schemas.

Definition constraint_items (mc : ModelIdentifier * constraints) : list item :=
  map (fun c => (fst mc, fst c, snd c)) (snd mc).

Definition schemas_three_checks : schemas_t :=
  [("core", [("people", [("not_null", [EStr "id"]); ("unique", [EStr "id"])]);
             ("drafts", [("not_null", [EStr "id"])]);
             ("accounts", [("unique", [EStr "id"])])])].

Definition all_but_drafts : Compiler :=
  mkCompiler (fun _ n => negb (String.eqb n "drafts")).

(** A warehouse with one table ["analytics"."people"], whose fields all hold
    the values of [col]. *)
Definition db_people (col : list SQL.value) : SQL.database :=
  fun schema table _ =>
    if String.eqb schema "analytics" && String.eqb table "people" then Some col else None.

(** A warehouse with the two tables ["analytics"."orders"] and
    ["analytics"."customers"], each with one column. *)
Definition db_orders_customers (orders_customer_id customers_id : list SQL.value)
  : SQL.database :=
  fun schema table field =>
    if String.eqb schema "analytics" then
      if String.eqb table "orders" && String.eqb field "customer_id"
      then Some orders_customer_id
      else if String.eqb table "customers" && String.eqb field "id"
      then Some customers_id
      else None
    else None.

Definition orders_reference : list (string * string) :=
  [("from", "customer_id"); ("to", "customers"); ("field", "id")].

(** ** Further spec-side counts *)

(** The number of rows of a column that are not NULL. *)
Definition non_null_rows (col : list SQL.value) : nat :=
  length (filter (fun v => match v with Some _ => true | None => false end) col).

(** ** Notions for the further properties *)

(** The statement a handler sends for an entry, when it sends one. *)
Definition statement_of (self : SchemaTester) (model : ModelIdentifier)
    (constraint_type : string) (x : entry) : string :=
  match synthesized self model constraint_type x with
  | Some (_, sql) => sql
  | None => EmptyString
  end.

Definition well_formed_entry (self : SchemaTester) (model : ModelIdentifier)
    (constraint_type : string) (x : entry) : bool :=
  match synthesized self model constraint_type x with
  | Some _ => true
  | None => false
  end.

(** The constraint type has a handler. *)
Definition known_constraint (constraint_type : string) : bool :=
  match constraint_map_get constraint_type constraint_map with
  | Some _ => true
  | None => false
  end.

(** A warehouse that can be reached, executes every statement and answers
    it with a row of one column. *)
Definition answering (self : SchemaTester) : Prop :=
  connected self
  /\ (forall sql, cursor_execute (target self) sql = None)
  /\ (forall sql, exists n, cursor_fetchone (target self) sql = Some [n]).

Fixpoint printed (tr : list event) : list string :=
  match tr with
  | [] => []
  | Print line :: tr' => line :: printed tr'
  | _ :: tr' => printed tr'
  end.

(** Two computations that do the same and end alike: with the same value,
    or with exceptions of the same class and message. *)
Definition agree {A} (m1 m2 : M A) : Prop :=
  fst m1 = fst m2
  /\ match snd m1, snd m2 with
     | Return a, Return b => a = b
     | Raise e1, Raise e2 => exn_class e1 = exn_class e2 /\ message e1 = message e2
     | _, _ => False
     end.

(** A target whose handle cannot be had: the attempt raises [e]. *)
Definition tester_unreachable (e : exn) : SchemaTester :=
  mkSchemaTester analytics (mkRedshiftTarget (Some e) (fun _ => None) (fun _ => Some [0%Z])).

(** The driver's connection error, in the manner of psycopg2. *)
Definition OperationalError : exc_class :=
  Subclass "OperationalError" (Subclass "DatabaseError" (Subclass "Error" StandardError)).
Definition connection_refused : exn := new_exn OperationalError "could not connect to server".

Definition KeyboardInterrupt : exc_class := Subclass "KeyboardInterrupt" BaseException.
Definition interrupted : exn := new_exn KeyboardInterrupt EmptyString.

(** A warehouse on which every statement fails with [e]. *)
Definition tester_raising (e : exn) : SchemaTester :=
  mkSchemaTester analytics (mkRedshiftTarget None (fun _ => Some e) (fun _ => Some [0%Z])).

(** ** [project_schemas] and [test] (lines 40-56 and 171-174) *)

(** [self.project['source-paths']] and [self.project['project-root']] *)
Record ProjectPaths : Type := mkProjectPaths {
  source_paths : list string;
  project_root : string
}.

(** The file tree as [project_schemas] meets it: the three functions of
    [os.path] it calls, [os.walk(top)] consumed to the end, and
    [yaml.safe_load] of the opened file, which gives the document (a mapping
    from model names to their constraints) or raises, as [open] does. *)
Record FileSystem : Type := mkFileSystem {
  path_join : string -> string -> string;
  path_relpath : string -> string -> string;
  path_dirname : string -> string;
  walk : string -> list (string * list string * list string);
  load : string -> outcome (list (string * constraints))
}.

(** A dictionary with string keys: [d[k] = v] and [d.get(k)]. *)
Fixpoint dict_set {V} (k : string) (v : V) (d : list (string * V)) : list (string * V) :=
  match d with
  | [] => [(k, v)]
  | (k', v') :: d' =>
      if String.eqb k k' then (k, v) :: d' else (k', v') :: dict_set k v d'
  end.

Fixpoint dict_get {V} (k : string) (d : list (string * V)) : option V :=
  match d with
  | [] => None
  | (k', v) :: d' => if String.eqb k k' then Some v else dict_get k d'
  end.

(** The state of [project_schemas]: the files it has opened, or tried to,
    and the dictionary [schemas]. *)
Definition discovery : Type := (list string * schemas_t)%type.

(** A [for] loop over a list that carries the state and ends at the first
    exception. *)
Fixpoint loop {A} (l : list A) (body : A -> discovery -> discovery * option exn)
    (s : discovery) : discovery * option exn :=
  match l with
  | [] => (s, None)
  | x :: l' =>
      match body x s with
      | (s', None) => loop l' body s'
      | (s', Some e) => (s', Some e)
      end
  end.

Definition project_schemas (fs : FileSystem) (project : ProjectPaths)
  : list string * outcome schemas_t :=
  let schemas := [] in
  let '((opened, schemas), r) :=
    loop (source_paths project) (fun source_path =>
      let full_source_path := path_join fs (project_root project) source_path in
      loop (walk fs full_source_path) (fun '(root, dirs, files) =>
        loop files (fun filename s =>
          if String.eqb filename "schema.yml" then
            let filepath := path_join fs root filename in
            let abs_path := path_join fs root filename in
            let rel_path := path_relpath fs abs_path full_source_path in
            let parent_path := path_dirname fs rel_path in
            match load fs filepath with
            | Return project_cfg =>
                ((fst s ++ [filepath], dict_set parent_path project_cfg (snd s)), None)
            | Raise e => ((fst s ++ [filepath], snd s), Some e)
            end
          else (s, None))))
      ([], schemas) in
  (opened, match r with None => Return schemas | Some e => Raise e end).



(** Every [schema.yml] the walks come upon, in the order they do: the key
    it is stored under and the path it is opened by. *)
Definition discovered (fs : FileSystem) (project : ProjectPaths) : list (string * string) :=
  flat_map (fun source_path =>
    let full_source_path := path_join fs (project_root project) source_path in
    flat_map (fun rdf : string * list string * list string =>
      let root := fst (fst rdf) in
      flat_map (fun filename =>
        if String.eqb filename "schema.yml"
        then [(path_dirname fs (path_relpath fs (path_join fs root filename) full_source_path),
               path_join fs root filename)]
        else [])
        (snd rdf))
      (walk fs full_source_path))
    (source_paths project).

(** What [project_schemas] does with one discovered file. *)
Definition store (fs : FileSystem) (kf : string * string) (s : discovery)
  : discovery * option exn :=
  match load fs (snd kf) with
  | Return project_cfg =>
      ((fst s ++ [snd kf], dict_set (fst kf) project_cfg (snd s)), None)
  | Raise e => ((fst s ++ [snd kf], snd s), Some e)
  end.

(** The document of a file that loads. *)
Definition loaded (fs : FileSystem) (filepath : string) : list (string * constraints) :=
  match load fs filepath with
  | Return project_cfg => project_cfg
  | Raise _ => []
  end.

(** The last file discovered for the key [k]. *)
Definition last_for (k : string) (found : list (string * string)) : option string :=
  option_map snd (find (fun kf => String.eqb k (fst kf)) (rev found)).

(** A file tree for the examples: paths are joined with a slash, and a path
    relative to [start] is what follows [start] and a slash. *)
Definition dirname_of (p : string) : string :=
  match index 0 "/schema.yml" p with
  | Some n => substring 0 n p
  | None => EmptyString
  end.

Definition small_tree (unreadable : string) : FileSystem :=
  mkFileSystem
    (fun a b => a +++ "/" +++ b)
    (fun p start => substring (String.length start + 1) (String.length p) p)
    dirname_of
    (fun top =>
       if String.eqb top "/proj/models"
       then [("/proj/models", ["core"], ["README.md"]);
             ("/proj/models/core", [], ["people.sql"; "schema.yml"])]
       else if String.eqb top "/proj/extra"
       then [("/proj/extra", ["core"], []);
             ("/proj/extra/core", [], ["schema.yml"; "schema.yaml"])]
       else [])
    (fun filepath =>
       if String.eqb filepath unreadable
       then Raise (new_exn (Subclass "IOError" (Subclass "EnvironmentError" StandardError))
                     "Permission denied")
       else if String.eqb filepath "/proj/models/core/schema.yml"
       then Return [("people", [("not_null", [EStr "id"])])]
       else Return [("accounts", [("unique", [EStr "id"])])]).

Definition small_project : ProjectPaths := mkProjectPaths ["models"; "extra"] "/proj".

(** * Properties *)

(** ** The effect monad and loops *)

Section Laws.
Context {A B C : Type}.

Lemma bind_ret_l (a : A) (k : A -> M B) : bind (ret a) k = k a.
Proof. unfold bind, ret. destruct (k a); reflexivity. Qed.

Lemma bind_assoc (m : M A) (f : A -> M B) (g : B -> M C) :
  bind (bind m f) g = bind m (fun a => bind (f a) g).
Proof.
  destruct m as [tr [a|e]]; simpl; [|reflexivity].
  destruct (f a) as [tr1 [b|e1]]; simpl; [|reflexivity].
  destruct (g b) as [tr2 r]. now rewrite app_assoc.
Qed.

Lemma bind_Return (tr : list event) (a : A) (k : A -> M B) :
  bind (tr, Return a) k = prefix tr (k a).
Proof. unfold prefix; simpl. destruct (k a); reflexivity. Qed.

Lemma bind_Raise (tr : list event) (e : exn) (k : A -> M B) :
  bind (tr, Raise e) k = (tr, Raise e).
Proof. reflexivity. Qed.

Lemma prefix_nil (m : M A) : prefix [] m = m.
Proof. destruct m; reflexivity. Qed.

Lemma prefix_prefix (tr1 tr2 : list event) (m : M A) :
  prefix tr1 (prefix tr2 m) = prefix (tr1 ++ tr2) m.
Proof. unfold prefix; simpl. now rewrite app_assoc. Qed.

Lemma prefix_bind (tr : list event) (m : M A) (k : A -> M B) :
  bind (prefix tr m) k = prefix tr (bind m k).
Proof.
  destruct m as [tr1 [a|e]]; unfold prefix; simpl; [|reflexivity].
  destruct (k a) as [tr2 r]; simpl. now rewrite app_assoc.
Qed.

End Laws.

Lemma bind_unit_ret_r (m : M unit) : (m ;; ret tt) = m.
Proof. destruct m as [tr [[]|e]]; simpl; now rewrite ?app_nil_r. Qed.

Lemma for_each_app {A} (l1 l2 : list A) (body : A -> M unit) :
  for_each (l1 ++ l2) body = (for_each l1 body ;; for_each l2 body).
Proof.
  induction l1 as [|x l1 IH]; cbn [for_each app].
  - symmetry. apply (bind_ret_l tt).
  - now rewrite IH, bind_assoc.
Qed.

(** An exception raised by the body ends the loop: what follows the entry
    plays no part. *)
Lemma for_each_raise {A} (pre post : list A) (x : A) (body : A -> M unit)
    (tr0 tr : list event) (e : exn) :
  for_each pre body = (tr0, Return tt) ->
  body x = (tr, Raise e) ->
  for_each (pre ++ x :: post) body = (tr0 ++ tr, Raise e).
Proof.
  intros Hpre Hx. rewrite for_each_app, Hpre, bind_Return. simpl.
  rewrite Hx. reflexivity.
Qed.

Lemma for_each_return {A} (pre post : list A) (x : A) (body : A -> M unit)
    (tr0 tr : list event) :
  for_each pre body = (tr0, Return tt) ->
  body x = (tr, Return tt) ->
  for_each (pre ++ x :: post) body = prefix (tr0 ++ tr) (for_each post body).
Proof.
  intros Hpre Hx. rewrite for_each_app, Hpre, bind_Return. simpl.
  rewrite Hx, bind_Return, prefix_prefix. reflexivity.
Qed.

(** ** The orchestrator as one loop over the pending constraints *)

Lemma run_items_app (self : SchemaTester) (l1 l2 : list item) :
  run_items self (l1 ++ l2) = (run_items self l1 ;; run_items self l2).
Proof. apply for_each_app. Qed.

(** The three ways the [try] statement ends. *)
Lemma guarded_dispatch_ok (self : SchemaTester) (it : item) (tr : list event) :
  dispatch self it = (tr, Return tt) ->
  guarded_dispatch self it = (tr ++ [Yield (item_model it)], Return tt).
Proof. intros H. unfold guarded_dispatch. rewrite H. reflexivity. Qed.

Lemma guarded_dispatch_caught (self : SchemaTester) (it : item) (tr : list event) (e : exn) :
  dispatch self it = (tr, Raise e) ->
  isinstance e RuntimeError = true ->
  guarded_dispatch self it = (tr ++ [Print ("ERRROR: " +++ message e)], Return tt).
Proof. intros H He. unfold guarded_dispatch. rewrite H. simpl. rewrite He. reflexivity. Qed.

Lemma guarded_dispatch_fatal (self : SchemaTester) (it : item) (tr : list event) (e : exn) :
  dispatch self it = (tr, Raise e) ->
  isinstance e RuntimeError = false ->
  guarded_dispatch self it = (tr, Raise e).
Proof. intros H He. unfold guarded_dispatch. rewrite H. simpl. rewrite He. reflexivity. Qed.

Lemma for_each_ext {A} (l : list A) (f g : A -> M unit) :
  (forall x, f x = g x) -> for_each l f = for_each l g.
Proof. intros H. induction l as [|x l IH]; simpl; [reflexivity|]. now rewrite H, IH. Qed.

Lemma for_each_map {A B} (h : A -> B) (l : list A) (body : B -> M unit) :
  for_each (map h l) body = for_each l (fun x => body (h x)).
Proof. induction l as [|x l IH]; simpl; [reflexivity|]. now rewrite IH. Qed.

Lemma for_each_flat_map {A B} (h : A -> list B) (l : list A) (body : B -> M unit) :
  for_each (flat_map h l) body = for_each l (fun x => for_each (h x) body).
Proof.
  induction l as [|x l IH]; cbn [flat_map for_each]; [reflexivity|].
  now rewrite for_each_app, IH.
Qed.

(** The nested loops of [validate_schema] dispatch the pending constraints
    of the enabled models one after the other. *)
Lemma validate_schema_items (self : SchemaTester) (compiler : Compiler)
    (schemas : schemas_t) :
  validate_schema self schemas compiler = run_items self (work_items compiler schemas).
Proof.
  unfold validate_schema, run_items, work_items.
  rewrite for_each_flat_map. apply for_each_ext. intros [g ms].
  rewrite for_each_flat_map. apply for_each_ext. intros [n cs].
  unfold model_items. cbn [fst snd].
  destruct (enabled compiler g n); cbn [negb]; [|reflexivity].
  rewrite for_each_map. apply for_each_ext. intros [ct cd]. reflexivity.
Qed.

(** A run over [pre ++ it :: post] whose dispatch of [it] ends with an
    exception that is not a [RuntimeError]: the run ends there. *)
Lemma run_items_fatal (self : SchemaTester) (pre post : list item) (it : item)
    (tr0 tr : list event) (e : exn) :
  run_items self pre = (tr0, Return tt) ->
  dispatch self it = (tr, Raise e) ->
  isinstance e RuntimeError = false ->
  run_items self (pre ++ it :: post) = (tr0 ++ tr, Raise e).
Proof.
  intros Hpre Hd He. apply for_each_raise; [exact Hpre|].
  now apply guarded_dispatch_fatal.
Qed.

Lemma run_items_cons (self : SchemaTester) (it : item) (its : list item) :
  run_items self (it :: its) = (guarded_dispatch self it ;; run_items self its).
Proof. reflexivity. Qed.

(** ** The statements the handlers synthesize *)

Lemma make_query_not_null (self : SchemaTester) (table : string) (field : entry) :
  make_query QUERY_VALIDATE_NOT_NULL (get_query_params self table field)
  = ret (sql_of QUERY_VALIDATE_NOT_NULL (get_query_params self table field)).
Proof. unfold make_query, sql_of, lift, ret, get_query_params. vm_compute. reflexivity. Qed.

Lemma make_query_unique (self : SchemaTester) (table : string) (field : entry) :
  make_query QUERY_VALIDATE_UNIQUE (get_query_params self table field)
  = ret (sql_of QUERY_VALIDATE_UNIQUE (get_query_params self table field)).
Proof. unfold make_query, sql_of, lift, ret, get_query_params. vm_compute. reflexivity. Qed.

Lemma make_query_referential_integrity (schema table r_from r_to r_field : string) :
  make_query QUERY_VALIDATE_REFERENTIAL_INTEGRITY
    (reference_params schema table r_from r_to r_field)
  = ret (sql_of QUERY_VALIDATE_REFERENTIAL_INTEGRITY
           (reference_params schema table r_from r_to r_field)).
Proof. unfold make_query, sql_of, lift, ret, reference_params. vm_compute. reflexivity. Qed.

(** ** [execute_query], case by case *)

Lemma execute_query_unsupported (self : SchemaTester) (model : ModelIdentifier) (sql : string) :
  cfg_type (run_environment self) <> "redshift" ->
  execute_query self model sql = ([], Raise (unsupported_target self)).
Proof.
  intros H. unfold execute_query, get_target.
  destruct (String.eqb_spec (cfg_type (run_environment self)) "redshift") as [E|_];
    [contradiction|reflexivity].
Qed.

Lemma get_target_connected (self : SchemaTester) :
  connected self -> get_target self = ret (target self).
Proof. intros [Ht _]. unfold get_target. now rewrite Ht. Qed.

Lemma execute_query_raises (self : SchemaTester) (model : ModelIdentifier) (sql : string)
    (e : exn) :
  connected self ->
  cursor_execute (target self) sql = Some e ->
  execute_query self model sql
  = ([Execute sql], Raise (if isinstance e Exception then set_model e model else e)).
Proof.
  intros Hc He. unfold execute_query. rewrite (get_target_connected _ Hc), bind_ret_l.
  destruct Hc as [_ Hh]. rewrite Hh, He. cbn.
  destruct (isinstance e Exception); reflexivity.
Qed.

Lemma execute_query_no_row (self : SchemaTester) (model : ModelIdentifier) (sql : string) :
  connected self ->
  cursor_execute (target self) sql = None ->
  cursor_fetchone (target self) sql = None ->
  execute_query self model sql = ([Execute sql], Raise no_row_error).
Proof.
  intros Hc He Hf. unfold execute_query. rewrite (get_target_connected _ Hc), bind_ret_l.
  destruct Hc as [_ Hh]. rewrite Hh, He, Hf. reflexivity.
Qed.

Lemma execute_query_shape (self : SchemaTester) (model : ModelIdentifier) (sql : string)
    (row : list Z) :
  connected self ->
  cursor_execute (target self) sql = None ->
  cursor_fetchone (target self) sql = Some row ->
  length row <> 1 ->
  execute_query self model sql
  = ([Execute sql; Print ("SQL: " +++ sql); Print "RESULT:"], Raise (shape_error row)).
Proof.
  intros Hc He Hf Hl. unfold execute_query. rewrite (get_target_connected _ Hc), bind_ret_l.
  destruct Hc as [_ Hh]. rewrite Hh, He, Hf.
  destruct (Nat.eqb_spec (length row) 1) as [E|_]; [contradiction|reflexivity].
Qed.

Lemma execute_query_count (self : SchemaTester) (model : ModelIdentifier) (sql : string)
    (n : Z) :
  connected self ->
  cursor_execute (target self) sql = None ->
  cursor_fetchone (target self) sql = Some [n] ->
  execute_query self model sql = ([Execute sql], Return n).
Proof.
  intros Hc He Hf. unfold execute_query. rewrite (get_target_connected _ Hc), bind_ret_l.
  destruct Hc as [_ Hh]. rewrite Hh, He, Hf. reflexivity.
Qed.

(** ** The handlers, entry by entry *)

Lemma report_line (n : Z) :
  report n = ([Print (if (n =? 0)%Z then "  OK"
                      else "  FAILED (" +++ PyStr.str_of_Z n +++ ")")], Return tt).
Proof. unfold report. destruct (n =? 0)%Z; reflexivity. Qed.

Lemma print_bind {A} (line : string) (m : M A) : (print line ;; m) = prefix [Print line] m.
Proof. unfold print, emit. apply bind_Return. Qed.

Lemma handler_entry (self : SchemaTester) (model : ModelIdentifier) (ct : string)
    (x : entry) (rest : list entry) (line sql : string) :
  synthesized self model ct x = Some (line, sql) ->
  validate_schema_constraint self model ct (x :: rest)
  = (check self model line sql ;; validate_schema_constraint self model ct rest).
Proof.
  unfold synthesized, validate_schema_constraint, constraint_map.
  cbn [constraint_map_get].
  destruct (String.eqb ct "not_null").
  { intros H; injection H as <- <-. unfold validate_not_null. cbn [for_each].
    rewrite make_query_not_null, bind_ret_l. reflexivity. }
  destruct (String.eqb ct "unique").
  { intros H; injection H as <- <-. unfold validate_unique. cbn [for_each].
    rewrite make_query_unique, bind_ret_l. reflexivity. }
  destruct (String.eqb ct "relationships"); [|discriminate].
  destruct x as [s|d]; [discriminate|].
  destruct (Format.lookup "from" d) as [r_from|] eqn:Hfrom; [|discriminate].
  destruct (Format.lookup "to" d) as [r_to|] eqn:Hto; [|discriminate].
  destruct (Format.lookup "field" d) as [r_field|] eqn:Hfield; [|discriminate].
  intros H; injection H as <- <-.
  unfold validate_relationships. cbn [for_each].
  unfold relationships_params, getitem. rewrite Hfrom, Hto, Hfield.
  rewrite !bind_ret_l.
  fold (reference_params (cfg_schema (run_environment self)) (snd model) r_from r_to r_field).
  rewrite make_query_referential_integrity, !bind_ret_l. reflexivity.
Qed.

Lemma handler_nil (self : SchemaTester) (model : ModelIdentifier) (ct : string)
    (x : entry) (line sql : string) :
  synthesized self model ct x = Some (line, sql) ->
  validate_schema_constraint self model ct [] = ret tt.
Proof.
  unfold synthesized, validate_schema_constraint, constraint_map.
  cbn [constraint_map_get].
  destruct (String.eqb ct "not_null"); [reflexivity|].
  destruct (String.eqb ct "unique"); [reflexivity|].
  destruct (String.eqb ct "relationships"); [reflexivity|discriminate].
Qed.

Lemma handler_app (self : SchemaTester) (model : ModelIdentifier) (ct : string)
    (x : entry) (line sql : string) (pre post : list entry) :
  synthesized self model ct x = Some (line, sql) ->
  validate_schema_constraint self model ct (pre ++ post)
  = (validate_schema_constraint self model ct pre ;;
     validate_schema_constraint self model ct post).
Proof.
  unfold synthesized, validate_schema_constraint, constraint_map.
  cbn [constraint_map_get].
  destruct (String.eqb ct "not_null"); [intros _; apply for_each_app|].
  destruct (String.eqb ct "unique"); [intros _; apply for_each_app|].
  destruct (String.eqb ct "relationships"); [intros _; apply for_each_app|discriminate].
Qed.

(** C3 (as amended): a handler takes the entries of its payload in their
    declared order; a check that counts violations is reported and the next
    entry follows; an exception raised while executing an entry ends the
    handler invocation, and the entries after it are neither executed nor
    reported. *)
Theorem handler_in_order_until_exception
    (self : SchemaTester) (model : ModelIdentifier) (ct : string)
    (x : entry) (line sql : string) (pre post : list entry) :
  synthesized self model ct x = Some (line, sql) ->
  let h := validate_schema_constraint self model ct in
  h (pre ++ x :: post) = (h pre ;; check self model line sql ;; h post)
  /\ (forall tr0 tr e,
        h pre = (tr0, Return tt) ->
        execute_query self model sql = (tr, Raise e) ->
        h (pre ++ x :: post) = (tr0 ++ Print line :: tr, Raise e))
  /\ (forall tr0 tr n,
        h pre = (tr0, Return tt) ->
        execute_query self model sql = (tr, Return n) ->
        h (pre ++ x :: post)
        = prefix (tr0 ++ Print line :: tr
                  ++ [Print (if (n =? 0)%Z then "  OK"
                             else "  FAILED (" +++ PyStr.str_of_Z n +++ ")")])
                 (h post)).
Proof.
  intros Hs h.
  assert (Heq : h (pre ++ x :: post) = (h pre ;; check self model line sql ;; h post)).
  { unfold h. rewrite (handler_app _ _ _ _ _ _ _ _ Hs).
    now rewrite (handler_entry _ _ _ _ _ _ _ Hs). }
  split; [exact Heq|]. split.
  - intros tr0 tr e Hpre Hx. rewrite Heq, Hpre, bind_Return.
    unfold check. rewrite Hx. reflexivity.
  - intros tr0 tr n Hpre Hx. rewrite Heq, Hpre, bind_Return.
    unfold check. rewrite Hx, print_bind, bind_Return, report_line.
    unfold prefix. cbn [fst snd]. rewrite bind_Return. unfold prefix.
    cbn [fst snd app]. rewrite <- !app_assoc. cbn [app].
    now rewrite <- !app_assoc.
Qed.

Lemma handler_in_order_until_exception_witness :
  synthesized (tester_counting 2) people "unique" (EStr "id")
  = Some ("VALIDATE UNIQUE " +++ dq +++ "people" +++ dq +++ "." +++ dq +++ "id" +++ dq,
          sql_of QUERY_VALIDATE_UNIQUE (get_query_params (tester_counting 2) "people" (EStr "id")))
  /\ executed (trace (validate_schema_constraint (tester_counting 2) people "unique"
                        [EStr "id"; EStr "email"]))
     = [sql_of QUERY_VALIDATE_UNIQUE (get_query_params (tester_counting 2) "people" (EStr "id"));
        sql_of QUERY_VALIDATE_UNIQUE (get_query_params (tester_counting 2) "people" (EStr "email"))].
Proof.
  split; [reflexivity|].
  pose proof (proj1 (handler_in_order_until_exception (tester_counting 2) people "unique"
                       (EStr "id") _ _ [] [EStr "email"] eq_refl)) as H.
  cbn [app] in H. rewrite H. vm_compute. reflexivity.
Defined.

(** C3 (as stated) fails: the statement for the first field raises, and the
    second field of the same payload is never executed nor reported. *)
Lemma handler_abandons_later_entries :
  validate_not_null (tester_failing_on "id" undefined_column) people [EStr "id"; EStr "email"]
  = ([Print ("VALIDATE NOT NULL " +++ dq +++ "people" +++ dq +++ "." +++ dq +++ "id" +++ dq);
      Execute (sql_of QUERY_VALIDATE_NOT_NULL
                 (get_query_params (tester_failing_on "id" undefined_column) "people" (EStr "id")))],
     Raise (set_model undefined_column people))
  /\ cursor_execute (target (tester_failing_on "id" undefined_column))
       (sql_of QUERY_VALIDATE_NOT_NULL
          (get_query_params (tester_failing_on "id" undefined_column) "people" (EStr "email")))
     = None.
Proof. split; vm_compute; reflexivity. Qed.

(** ** A run, seen from one of its pending constraints *)

Lemma validate_schema_at (self : SchemaTester) (compiler : Compiler) (schemas : schemas_t)
    (pre post : list item) (it : item) (tr0 : list event) :
  work_items compiler schemas = pre ++ it :: post ->
  run_items self pre = (tr0, Return tt) ->
  validate_schema self schemas compiler
  = prefix tr0 (guarded_dispatch self it ;; run_items self post).
Proof.
  intros Hw Hpre. rewrite validate_schema_items, Hw, run_items_app, Hpre, bind_Return.
  reflexivity.
Qed.

(** The dispatch raises an exception the [except] clause catches: the
    message is printed, nothing is yielded, the rest of the run follows. *)
Lemma validate_schema_caught (self : SchemaTester) (compiler : Compiler) (schemas : schemas_t)
    (pre post : list item) (it : item) (tr0 tr : list event) (e : exn) :
  work_items compiler schemas = pre ++ it :: post ->
  run_items self pre = (tr0, Return tt) ->
  dispatch self it = (tr, Raise e) ->
  isinstance e RuntimeError = true ->
  validate_schema self schemas compiler
  = prefix (tr0 ++ tr ++ [Print ("ERRROR: " +++ message e)]) (run_items self post).
Proof.
  intros Hw Hpre Hd He. rewrite (validate_schema_at _ _ _ _ _ _ _ Hw Hpre).
  rewrite (guarded_dispatch_caught _ _ _ _ Hd He), bind_Return, prefix_prefix.
  reflexivity.
Qed.

(** The dispatch raises an exception the [except] clause lets through: the
    run ends with it. *)
Lemma validate_schema_fatal (self : SchemaTester) (compiler : Compiler) (schemas : schemas_t)
    (pre post : list item) (it : item) (tr0 tr : list event) (e : exn) :
  work_items compiler schemas = pre ++ it :: post ->
  run_items self pre = (tr0, Return tt) ->
  dispatch self it = (tr, Raise e) ->
  isinstance e RuntimeError = false ->
  validate_schema self schemas compiler = (tr0 ++ tr, Raise e).
Proof.
  intros Hw Hpre Hd He. rewrite validate_schema_items, Hw.
  now apply run_items_fatal.
Qed.

(** A handler whose entry's statement raises: the header line, what
    [execute_query] did, and the exception. *)
Lemma handler_entry_raises (self : SchemaTester) (model : ModelIdentifier) (ct : string)
    (x : entry) (rest : list entry) (line sql : string) (tr : list event) (e : exn) :
  synthesized self model ct x = Some (line, sql) ->
  execute_query self model sql = (tr, Raise e) ->
  validate_schema_constraint self model ct (x :: rest) = (Print line :: tr, Raise e).
Proof.
  intros Hs Hx. rewrite (handler_entry _ _ _ _ _ _ _ Hs). unfold check.
  rewrite Hx. reflexivity.
Qed.

(** C5: a constraint type outside [not_null], [unique], [relationships]
    makes the dispatcher raise an error that names the type and the model;
    the orchestrator prints it and goes on with the constraints and models
    that follow. *)
Theorem unknown_constraint_reported_run_continues
    (self : SchemaTester) (model : ModelIdentifier) (ct : string) (cd : list entry) :
  ct <> "not_null" -> ct <> "unique" -> ct <> "relationships" ->
  validate_schema_constraint self model ct cd = ([], Raise (invalid_constraint model ct))
  /\ forall (compiler : Compiler) (schemas : schemas_t) (pre post : list item)
            (tr0 : list event),
       work_items compiler schemas = pre ++ (model, ct, cd) :: post ->
       run_items self pre = (tr0, Return tt) ->
       validate_schema self schemas compiler
       = prefix (tr0 ++ [Print ("ERRROR: Invalid constraint '" +++ ct
                                +++ "' specified for '" +++ PyStr.str_of_pair model
                                +++ "' in schema.yml")])
                (run_items self post).
Proof.
  intros H1 H2 H3.
  assert (Hd : validate_schema_constraint self model ct cd
               = ([], Raise (invalid_constraint model ct))).
  { unfold validate_schema_constraint, constraint_map. cbn [constraint_map_get].
    destruct (String.eqb_spec ct "not_null"); [contradiction|].
    destruct (String.eqb_spec ct "unique"); [contradiction|].
    destruct (String.eqb_spec ct "relationships"); [contradiction|].
    reflexivity. }
  split; [exact Hd|].
  intros compiler schemas pre post tr0 Hw Hpre.
  now rewrite (validate_schema_caught _ _ _ _ _ _ _ _ _ Hw Hpre Hd eq_refl).
Qed.

Lemma unknown_constraint_reported_run_continues_witness :
  ("not_a_real_constraint" <> "not_null" /\ "not_a_real_constraint" <> "unique"
   /\ "not_a_real_constraint" <> "relationships")
  /\ validate_schema (tester_counting 0) schemas_with_bogus everything_enabled
     = ([Print "ERRROR: Invalid constraint 'not_a_real_constraint' specified for '('core', 'people')' in schema.yml";
         Print ("VALIDATE NOT NULL " +++ dq +++ "people" +++ dq +++ "." +++ dq +++ "id" +++ dq);
         Execute (sql_of QUERY_VALIDATE_NOT_NULL
                    [("schema", "analytics"); ("table", "people"); ("field", "id")]);
         Print "  OK";
         Yield ("core", "people");
         Print ("VALIDATE UNIQUE " +++ dq +++ "accounts" +++ dq +++ "." +++ dq +++ "id" +++ dq);
         Execute (sql_of QUERY_VALIDATE_UNIQUE
                    [("schema", "analytics"); ("table", "accounts"); ("field", "id")]);
         Print "  OK";
         Yield ("core", "accounts")],
        Return tt).
Proof.
  split; [repeat split; discriminate|].
  rewrite (proj2 (unknown_constraint_reported_run_continues (tester_counting 0)
                    people "not_a_real_constraint" [EStr "id"]
                    ltac:(discriminate) ltac:(discriminate) ltac:(discriminate))
             everything_enabled schemas_with_bogus []
             [(people, "not_null", [EStr "id"]); (("core", "accounts"), "unique", [EStr "id"])]
             [] eq_refl eq_refl).
  vm_compute. reflexivity.
Defined.

Lemma isinstance_set_model (e : exn) (model : ModelIdentifier) (c : exc_class) :
  isinstance (set_model e model) c = isinstance e c.
Proof. reflexivity. Qed.

(** C1 (as amended): an error raised by executing a statement is raised
    again by [execute_query] with the model attached, and leaves the handler
    at once.  The orchestrator catches it, prints its message and goes on
    with the next constraint only when it is a [RuntimeError]; any other
    error ends the run. *)
Theorem statement_error_tagged_caught_only_if_RuntimeError
    (self : SchemaTester) (model : ModelIdentifier) (sql : string) (e : exn) :
  connected self ->
  cursor_execute (target self) sql = Some e ->
  isinstance e Exception = true ->
  execute_query self model sql = ([Execute sql], Raise (set_model e model))
  /\ exn_model (set_model e model) = Some model
  /\ (forall (ct : string) (x : entry) (line : string) (rest : list entry),
        synthesized self model ct x = Some (line, sql) ->
        validate_schema_constraint self model ct (x :: rest)
        = ([Print line; Execute sql], Raise (set_model e model)))
  /\ (forall (compiler : Compiler) (schemas : schemas_t) (pre post : list item)
             (ct : string) (cd : list entry) (tr0 tr : list event),
        work_items compiler schemas = pre ++ (model, ct, cd) :: post ->
        run_items self pre = (tr0, Return tt) ->
        validate_schema_constraint self model ct cd = (tr, Raise (set_model e model)) ->
        validate_schema self schemas compiler
        = if isinstance e RuntimeError
          then prefix (tr0 ++ tr ++ [Print ("ERRROR: " +++ message e)]) (run_items self post)
          else (tr0 ++ tr, Raise (set_model e model))).
Proof.
  intros Hc He Hi.
  assert (Hx : execute_query self model sql = ([Execute sql], Raise (set_model e model))).
  { rewrite (execute_query_raises _ _ _ _ Hc He), Hi. reflexivity. }
  split; [exact Hx|]. split; [reflexivity|]. split.
  - intros ct x line rest Hs. exact (handler_entry_raises _ _ _ _ _ _ _ _ _ Hs Hx).
  - intros compiler schemas pre post ct cd tr0 tr Hw Hpre Hd.
    destruct (isinstance e RuntimeError) eqn:Hr.
    + exact (validate_schema_caught _ _ _ _ _ (model, ct, cd) _ _ _ Hw Hpre Hd Hr).
    + exact (validate_schema_fatal _ _ _ _ _ (model, ct, cd) _ _ _ Hw Hpre Hd Hr).
Qed.

Lemma statement_error_tagged_caught_only_if_RuntimeError_witness :
  (connected (tester_failing_on "id" out_of_memory)
   /\ cursor_execute (target (tester_failing_on "id" out_of_memory))
        (sql_of QUERY_VALIDATE_NOT_NULL
           [("schema", "analytics"); ("table", "people"); ("field", "id")])
      = Some out_of_memory
   /\ isinstance out_of_memory Exception = true)
  /\ validate_schema (tester_failing_on "id" out_of_memory) schemas_two_models
       everything_enabled
     = ([Print ("VALIDATE NOT NULL " +++ dq +++ "people" +++ dq +++ "." +++ dq +++ "id" +++ dq);
         Execute (sql_of QUERY_VALIDATE_NOT_NULL
                    [("schema", "analytics"); ("table", "people"); ("field", "id")]);
         Print "ERRROR: out of memory";
         Print ("VALIDATE UNIQUE " +++ dq +++ "accounts" +++ dq +++ "." +++ dq +++ "id" +++ dq);
         Execute (sql_of QUERY_VALIDATE_UNIQUE
                    [("schema", "analytics"); ("table", "accounts"); ("field", "id")]);
         Print "  OK";
         Yield ("core", "accounts")],
        Return tt).
Proof.
  split; [repeat split; reflexivity|].
  pose proof (statement_error_tagged_caught_only_if_RuntimeError
                (tester_failing_on "id" out_of_memory) people
                (sql_of QUERY_VALIDATE_NOT_NULL
                   [("schema", "analytics"); ("table", "people"); ("field", "id")])
                out_of_memory (conj eq_refl eq_refl) eq_refl eq_refl) as [_ [_ [Hh Hrun]]].
  rewrite (Hrun everything_enabled schemas_two_models []
             [(("core", "accounts"), "unique", [EStr "id"])]
             "not_null" [EStr "id"] [] _ eq_refl eq_refl
             (Hh "not_null" (EStr "id") _ [] eq_refl)).
  vm_compute. reflexivity.
Defined.

(** C1 (as stated) fails: the driver's error is no [RuntimeError]; it leaves
    the run, and the second model is never looked at. *)
Lemma driver_error_leaves_the_run :
  cursor_execute (target (tester_failing_on "id" undefined_column))
    (sql_of QUERY_VALIDATE_NOT_NULL
       [("schema", "analytics"); ("table", "people"); ("field", "id")])
  = Some undefined_column
  /\ validate_schema (tester_failing_on "id" undefined_column) schemas_two_models
       everything_enabled
     = ([Print ("VALIDATE NOT NULL " +++ dq +++ "people" +++ dq +++ "." +++ dq +++ "id" +++ dq);
         Execute (sql_of QUERY_VALIDATE_NOT_NULL
                    [("schema", "analytics"); ("table", "people"); ("field", "id")])],
        Raise (set_model undefined_column people)).
Proof. split; vm_compute; reflexivity. Qed.

(** C10: when the fetch gives no row, [execute_query] raises a [TypeError]
    (from [len(None)]) that carries no model and is no [RuntimeError]: it
    leaves the handler and ends the run.  A row of the wrong width raises a
    [RuntimeError], which the orchestrator catches and reports. *)
Theorem no_row_ends_run_wrong_width_is_reported
    (self : SchemaTester) (model : ModelIdentifier) (sql : string) :
  connected self ->
  cursor_execute (target self) sql = None ->
  (cursor_fetchone (target self) sql = None ->
   execute_query self model sql = ([Execute sql], Raise no_row_error)
   /\ isinstance no_row_error RuntimeError = false
   /\ exn_model no_row_error = None
   /\ (forall (ct : string) (x : entry) (line : string) (rest : list entry),
         synthesized self model ct x = Some (line, sql) ->
         validate_schema_constraint self model ct (x :: rest)
         = ([Print line; Execute sql], Raise no_row_error))
   /\ (forall (compiler : Compiler) (schemas : schemas_t) (pre post : list item)
              (ct : string) (cd : list entry) (tr0 tr : list event),
         work_items compiler schemas = pre ++ (model, ct, cd) :: post ->
         run_items self pre = (tr0, Return tt) ->
         validate_schema_constraint self model ct cd = (tr, Raise no_row_error) ->
         validate_schema self schemas compiler = (tr0 ++ tr, Raise no_row_error)))
  /\ (forall row : list Z,
        cursor_fetchone (target self) sql = Some row ->
        length row <> 1 ->
        execute_query self model sql
        = ([Execute sql; Print ("SQL: " +++ sql); Print "RESULT:"], Raise (shape_error row))
        /\ isinstance (shape_error row) RuntimeError = true
        /\ (forall (compiler : Compiler) (schemas : schemas_t) (pre post : list item)
                   (ct : string) (cd : list entry) (tr0 tr : list event),
              work_items compiler schemas = pre ++ (model, ct, cd) :: post ->
              run_items self pre = (tr0, Return tt) ->
              validate_schema_constraint self model ct cd = (tr, Raise (shape_error row)) ->
              validate_schema self schemas compiler
              = prefix (tr0 ++ tr
                        ++ [Print ("ERRROR: Unexpected validation result. Expected 1 record, got "
                                   +++ PyStr.str_of_nat (length row))])
                       (run_items self post))).
Proof.
  intros Hc He. split.
  - intros Hf.
    assert (Hx := execute_query_no_row self model sql Hc He Hf).
    split; [exact Hx|]. split; [reflexivity|]. split; [reflexivity|]. split.
    + intros ct x line rest Hs. exact (handler_entry_raises _ _ _ _ _ _ _ _ _ Hs Hx).
    + intros compiler schemas pre post ct cd tr0 tr Hw Hpre Hd.
      exact (validate_schema_fatal _ _ _ _ _ (model, ct, cd) _ _ _ Hw Hpre Hd eq_refl).
  - intros row Hf Hl.
    split; [exact (execute_query_shape self model sql row Hc He Hf Hl)|].
    split; [reflexivity|].
    intros compiler schemas pre post ct cd tr0 tr Hw Hpre Hd.
    exact (validate_schema_caught _ _ _ _ _ (model, ct, cd) _ _ _ Hw Hpre Hd eq_refl).
Qed.

Lemma no_row_ends_run_wrong_width_is_reported_witness :
  (connected (tester_fetching None)
   /\ cursor_execute (target (tester_fetching None))
        (sql_of QUERY_VALIDATE_NOT_NULL
           [("schema", "analytics"); ("table", "people"); ("field", "id")]) = None
   /\ cursor_fetchone (target (tester_fetching None))
        (sql_of QUERY_VALIDATE_NOT_NULL
           [("schema", "analytics"); ("table", "people"); ("field", "id")]) = None)
  /\ validate_schema (tester_fetching None) schemas_two_models everything_enabled
     = ([Print ("VALIDATE NOT NULL " +++ dq +++ "people" +++ dq +++ "." +++ dq +++ "id" +++ dq);
         Execute (sql_of QUERY_VALIDATE_NOT_NULL
                    [("schema", "analytics"); ("table", "people"); ("field", "id")])],
        Raise no_row_error)
  /\ (cursor_fetchone (target (tester_fetching (Some [0; 0]%Z)))
        (sql_of QUERY_VALIDATE_NOT_NULL
           [("schema", "analytics"); ("table", "people"); ("field", "id")]) = Some [0; 0]%Z
      /\ length [0; 0]%Z <> 1)
  /\ result (validate_schema (tester_fetching (Some [0; 0]%Z)) schemas_two_models
               everything_enabled)
     = Return tt.
Proof.
  split; [repeat split; reflexivity|]. split.
  - pose proof (proj1 (no_row_ends_run_wrong_width_is_reported
                         (tester_fetching None) people
                         (sql_of QUERY_VALIDATE_NOT_NULL
                            [("schema", "analytics"); ("table", "people"); ("field", "id")])
                         (conj eq_refl eq_refl) eq_refl) eq_refl)
      as [_ [_ [_ [Hh Hrun]]]].
    rewrite (Hrun everything_enabled schemas_two_models []
               [(("core", "accounts"), "unique", [EStr "id"])]
               "not_null" [EStr "id"] [] _ eq_refl eq_refl
               (Hh "not_null" (EStr "id") _ [] eq_refl)).
    reflexivity.
  - split; [split; [reflexivity|discriminate]|].
    pose proof (proj2 (no_row_ends_run_wrong_width_is_reported
                         (tester_fetching (Some [0; 0]%Z)) people
                         (sql_of QUERY_VALIDATE_NOT_NULL
                            [("schema", "analytics"); ("table", "people"); ("field", "id")])
                         (conj eq_refl eq_refl) eq_refl) [0; 0]%Z eq_refl ltac:(discriminate))
      as [Hx [_ Hrun]].
    rewrite (Hrun everything_enabled schemas_two_models []
               [(("core", "accounts"), "unique", [EStr "id"])]
               "not_null" [EStr "id"] [] _ eq_refl eq_refl
               (handler_entry_raises _ people "not_null" (EStr "id") [] _ _ _ _ eq_refl Hx)).
    vm_compute. reflexivity.
Defined.

(** ** What a run lets be seen: yields and executed statements *)

Lemma yields_app (a b : list event) : yields (a ++ b) = yields a ++ yields b.
Proof.
  induction a as [|ev a IH]; [reflexivity|].
  destruct ev; cbn [app yields]; now rewrite IH.
Qed.

Lemma executed_app (a b : list event) : executed (a ++ b) = executed a ++ executed b.
Proof.
  induction a as [|ev a IH]; [reflexivity|].
  destruct ev; cbn [app executed]; now rewrite IH.
Qed.

Lemma trace_bind {A B} (m : M A) (k : A -> M B) :
  trace (bind m k)
  = trace m ++ match result m with
               | Return a => trace (k a)
               | Raise _ => []
               end.
Proof.
  destruct m as [tr [a|e]]; cbn.
  - destruct (k a); reflexivity.
  - now rewrite app_nil_r.
Qed.

Section Unobserved.
Context {X : Type} (obs : list event -> list X).
Hypothesis obs_nil : obs [] = [].
Hypothesis obs_app : forall a b, obs (a ++ b) = obs a ++ obs b.
Hypothesis obs_print : forall line, obs [Print line] = [].

Lemma unobserved_bind {A B} (m : M A) (k : A -> M B) :
  unobserved obs m -> (forall a, unobserved obs (k a)) -> unobserved obs (bind m k).
Proof.
  unfold unobserved. intros Hm Hk. rewrite trace_bind, obs_app, Hm.
  destruct (result m); [apply Hk|apply obs_nil].
Qed.

Lemma unobserved_for_each {A} (l : list A) (body : A -> M unit) :
  (forall x, unobserved obs (body x)) -> unobserved obs (for_each l body).
Proof.
  intros Hb. induction l as [|x l IH]; [exact obs_nil|].
  cbn [for_each]. apply unobserved_bind; auto.
Qed.

Lemma unobserved_lift {A} (o : outcome A) : unobserved obs (lift o).
Proof. exact obs_nil. Qed.

Lemma unobserved_print (line : string) : unobserved obs (print line).
Proof. apply obs_print. Qed.

Lemma unobserved_report (n : Z) : unobserved obs (report n).
Proof. rewrite report_line. apply obs_print. Qed.

Lemma unobserved_getitem (x : entry) (key : string) : unobserved obs (getitem x key).
Proof.
  destruct x as [s|d]; cbn; [exact obs_nil|].
  destruct (Format.lookup key d); exact obs_nil.
Qed.

Ltac unobserved_steps Hx :=
  first [ apply Hx
        | apply unobserved_lift
        | apply unobserved_print
        | apply unobserved_report
        | apply unobserved_getitem
        | exact obs_nil
        | apply unobserved_bind; [unobserved_steps Hx | intros ?; unobserved_steps Hx] ].

(** The handlers add output lines only to what [execute_query] does. *)
Lemma unobserved_dispatch (self : SchemaTester) (it : item) :
  (forall model sql, unobserved obs (execute_query self model sql)) ->
  unobserved obs (dispatch self it).
Proof.
  intros Hx. destruct it as [[model ct] cd].
  unfold dispatch, validate_schema_constraint, constraint_map.
  cbn [constraint_map_get].
  destruct (String.eqb ct "not_null").
  { apply unobserved_for_each. intros x. unfold make_query. unobserved_steps Hx. }
  destruct (String.eqb ct "unique").
  { apply unobserved_for_each. intros x. unfold make_query. unobserved_steps Hx. }
  destruct (String.eqb ct "relationships"); [|exact obs_nil].
  apply unobserved_for_each. intros x. unfold relationships_params, make_query.
  unobserved_steps Hx.
Qed.

End Unobserved.

Lemma execute_query_yields_nothing (self : SchemaTester) (model : ModelIdentifier)
    (sql : string) :
  unobserved yields (execute_query self model sql).
Proof.
  unfold unobserved, execute_query, get_target.
  destruct (String.eqb (cfg_type (run_environment self)) "redshift"); [|reflexivity].
  rewrite bind_ret_l.
  destruct (get_handle (target self)); [reflexivity|].
  destruct (cursor_execute (target self) sql) as [e|].
  { cbn. destruct (isinstance e Exception); reflexivity. }
  destruct (cursor_fetchone (target self) sql) as [row|]; [|reflexivity].
  destruct (negb (length row =? 1)%nat); reflexivity.
Qed.

Lemma dispatch_yields_nothing (self : SchemaTester) (it : item) :
  yields (trace (dispatch self it)) = [].
Proof.
  apply (unobserved_dispatch yields eq_refl yields_app (fun _ => eq_refl)).
  apply execute_query_yields_nothing.
Qed.

Lemma executed_guarded_dispatch (self : SchemaTester) (it : item) :
  executed (trace (guarded_dispatch self it)) = executed (trace (dispatch self it)).
Proof.
  unfold guarded_dispatch. destruct (dispatch self it) as [tr [[]|e]]; cbn.
  - now rewrite executed_app, app_nil_r.
  - destruct (isinstance e RuntimeError); cbn; [|reflexivity].
    now rewrite executed_app, app_nil_r.
Qed.

(** No [RuntimeError] leaves a run: the [except] clause has them all. *)
Lemma run_items_escape (self : SchemaTester) (its : list item) (tr : list event) (e : exn) :
  run_items self its = (tr, Raise e) -> isinstance e RuntimeError = false.
Proof.
  revert tr. induction its as [|it its IH]; intros tr; [discriminate|].
  rewrite run_items_cons. unfold guarded_dispatch.
  destruct (dispatch self it) as [tr1 [[]|e1]]; cbn.
  - destruct (run_items self its) as [tr2 [[]|e2]]; [discriminate|].
    intros H; injection H as _ <-. now apply (IH tr2).
  - destruct (isinstance e1 RuntimeError) eqn:He1; cbn.
    + destruct (run_items self its) as [tr2 [[]|e2]]; [discriminate|].
      intros H; injection H as _ <-. now apply (IH tr2).
    + intros H; injection H as _ <-. exact He1.
Qed.

Lemma run_items_executes_nothing (self : SchemaTester) (its : list item) :
  (forall model sql, executed (trace (execute_query self model sql)) = []) ->
  executed (trace (run_items self its)) = [].
Proof.
  intros Hx. apply (unobserved_for_each executed eq_refl executed_app). intros it.
  unfold unobserved. rewrite executed_guarded_dispatch.
  now apply (unobserved_dispatch executed eq_refl executed_app (fun _ => eq_refl)).
Qed.

(** C4 (as amended): with a target type other than [redshift], every call of
    [execute_query] raises [NotImplementedError] before its statement is
    sent, so no statement ever runs.  The error is a [RuntimeError]: the
    orchestrator catches it at each constraint, prints it and goes on; it
    never leaves the run. *)
Theorem unsupported_target_caught_per_constraint (self : SchemaTester) :
  cfg_type (run_environment self) <> "redshift" ->
  (forall model sql, execute_query self model sql = ([], Raise (unsupported_target self)))
  /\ isinstance (unsupported_target self) RuntimeError = true
  /\ (forall (model : ModelIdentifier) (ct : string) (x : entry) (line sql : string)
             (rest : list entry),
        synthesized self model ct x = Some (line, sql) ->
        validate_schema_constraint self model ct (x :: rest)
        = ([Print line], Raise (unsupported_target self)))
  /\ (forall (compiler : Compiler) (schemas : schemas_t) (pre post : list item)
             (model : ModelIdentifier) (ct : string) (cd : list entry)
             (tr0 tr : list event),
        work_items compiler schemas = pre ++ (model, ct, cd) :: post ->
        run_items self pre = (tr0, Return tt) ->
        validate_schema_constraint self model ct cd = (tr, Raise (unsupported_target self)) ->
        validate_schema self schemas compiler
        = prefix (tr0 ++ tr
                  ++ [Print ("ERRROR: Unknown target type '"
                             +++ cfg_type (run_environment self) +++ "'")])
                 (run_items self post))
  /\ (forall (compiler : Compiler) (schemas : schemas_t),
        executed (trace (validate_schema self schemas compiler)) = [])
  /\ (forall (compiler : Compiler) (schemas : schemas_t),
        result (validate_schema self schemas compiler) <> Raise (unsupported_target self)).
Proof.
  intros Ht.
  assert (Hx : forall model sql,
             execute_query self model sql = ([], Raise (unsupported_target self))).
  { intros. now apply execute_query_unsupported. }
  split; [exact Hx|]. split; [reflexivity|]. split; [|split; [|split]].
  - intros model ct x line sql rest Hs.
    exact (handler_entry_raises _ _ _ _ _ _ _ _ _ Hs (Hx model sql)).
  - intros compiler schemas pre post model ct cd tr0 tr Hw Hpre Hd.
    exact (validate_schema_caught _ _ _ _ _ (model, ct, cd) _ _ _ Hw Hpre Hd eq_refl).
  - intros compiler schemas. rewrite validate_schema_items.
    apply run_items_executes_nothing. intros model sql. now rewrite Hx.
  - intros compiler schemas Hr. rewrite validate_schema_items in Hr.
    destruct (run_items self (work_items compiler schemas)) as [tr r] eqn:Hrun.
    cbn in Hr. subst r. apply run_items_escape in Hrun. discriminate.
Qed.

Lemma unsupported_target_caught_per_constraint_witness :
  cfg_type (run_environment tester_postgres) <> "redshift"
  /\ executed (trace (validate_schema tester_postgres schemas_two_models everything_enabled))
     = []
  /\ execute_query tester_postgres people "select 1"
     = ([], Raise (new_exn NotImplementedError "Unknown target type 'postgres'")).
Proof.
  split; [discriminate|].
  pose proof (unsupported_target_caught_per_constraint tester_postgres
                ltac:(discriminate)) as [Hx [_ [_ [_ [Hq _]]]]].
  split; [apply Hq|apply Hx].
Defined.

(** C4 (as stated) fails: on a [postgres] target the run prints the header
    of each check, reports the unsupported target once per constraint and
    returns normally; the error does not reach the caller. *)
Lemma unsupported_target_is_not_fatal :
  validate_schema tester_postgres schemas_two_models everything_enabled
  = ([Print ("VALIDATE NOT NULL " +++ dq +++ "people" +++ dq +++ "." +++ dq +++ "id" +++ dq);
      Print "ERRROR: Unknown target type 'postgres'";
      Print ("VALIDATE UNIQUE " +++ dq +++ "accounts" +++ dq +++ "." +++ dq +++ "id" +++ dq);
      Print "ERRROR: Unknown target type 'postgres'"],
     Return tt).
Proof. vm_compute. reflexivity. Qed.

(** ** Yields *)

Lemma model_eqb_eq (a b : ModelIdentifier) : model_eqb a b = true <-> a = b.
Proof.
  destruct a as [g n], b as [g' n']. unfold model_eqb. cbn.
  rewrite andb_true_iff, !String.eqb_eq. split.
  - intros [-> ->]. reflexivity.
  - intros H; injection H as -> ->. auto.
Qed.

Lemma yields_run_items (self : SchemaTester) (its : list item) :
  yields (trace (run_items self its))
  = map item_model (filter (dispatched_ok self) (reached self its)).
Proof.
  induction its as [|it its IH]; [reflexivity|].
  rewrite run_items_cons. cbn [reached].
  pose proof (dispatch_yields_nothing self it) as Hy.
  assert (Hok : dispatched_ok self it
                = match result (dispatch self it) with Return _ => true | Raise _ => false end)
    by reflexivity.
  unfold guarded_dispatch, fatal.
  destruct (dispatch self it) as [tr1 [[]|e]]; cbn in Hy, Hok |- *.
  - destruct (run_items self its) as [tr2 r2]; cbn in IH |- *.
    rewrite Hok, !yields_app, Hy, IH. reflexivity.
  - destruct (isinstance e RuntimeError); cbn.
    + destruct (run_items self its) as [tr2 r2]; cbn in IH |- *.
      rewrite Hok, !yields_app, Hy, IH. reflexivity.
    + rewrite Hok. exact Hy.
Qed.

Lemma reached_all_ok (self : SchemaTester) (its : list item) :
  (forall it, In it its -> dispatched_ok self it = true) ->
  filter (dispatched_ok self) (reached self its) = its.
Proof.
  induction its as [|it its IH]; intros H; [reflexivity|].
  assert (Hok : dispatched_ok self it = true) by (apply H; now left).
  assert (Hf : fatal self it = false).
  { unfold fatal. unfold dispatched_ok in Hok.
    destruct (result (dispatch self it)); [reflexivity|discriminate]. }
  cbn [reached]. rewrite Hf. cbn [filter]. rewrite Hok, IH; [reflexivity|].
  intros it' Hin. apply H. now right.
Qed.

Lemma reached_incl (self : SchemaTester) (its : list item) (it : item) :
  In it (reached self its) -> In it its.
Proof.
  induction its as [|it' its IH]; [easy|]. cbn [reached].
  destruct (fatal self it'); cbn; intuition.
Qed.

Lemma count_occ_map_filter {A} (f : A -> ModelIdentifier) (l : list A) (m : ModelIdentifier) :
  count_occ model_eq_dec (map f l) m
  = length (filter (fun x => model_eqb (f x) m) l).
Proof.
  induction l as [|x l IH]; [reflexivity|]. cbn [map filter].
  destruct (model_eqb (f x) m) eqn:E.
  - apply model_eqb_eq in E. rewrite count_occ_cons_eq by exact E. cbn. now rewrite IH.
  - rewrite count_occ_cons_neq; [exact IH|].
    intros Heq. apply model_eqb_eq in Heq. congruence.
Qed.

Lemma work_items_enabled_models (compiler : Compiler) (schemas : schemas_t) :
  work_items compiler schemas = flat_map constraint_items (enabled_models compiler schemas).
Proof.
  unfold work_items, enabled_models.
  induction schemas as [|[g ms] schemas IH]; [reflexivity|].
  cbn [flat_map fst snd]. rewrite flat_map_app, IH. f_equal.
  induction ms as [|[n cs] ms IHms]; [reflexivity|].
  cbn [flat_map fst snd]. rewrite flat_map_app, IHms. f_equal.
  unfold model_items. cbn [fst snd].
  destruct (enabled compiler g n); cbn; [now rewrite app_nil_r|reflexivity].
Qed.

Lemma length_flat_map_singletons (l : list (ModelIdentifier * constraints)) :
  (forall mc, In mc l -> length (snd mc) = 1) ->
  length (flat_map constraint_items l) = length l.
Proof.
  induction l as [|mc l IH]; intros H; [reflexivity|].
  cbn [flat_map]. rewrite length_app, IH by (intros; apply H; now right).
  unfold constraint_items. rewrite length_map, (H mc) by now left. reflexivity.
Qed.

(** A check that returns a count, whatever the count, dispatches
    successfully. *)
Lemma single_check_dispatched_ok (self : SchemaTester) (model : ModelIdentifier)
    (ct : string) (x : entry) (line sql : string) (tr : list event) (n : Z) :
  synthesized self model ct x = Some (line, sql) ->
  execute_query self model sql = (tr, Return n) ->
  dispatched_ok self (model, ct, [x]) = true.
Proof.
  intros Hs Hx. unfold dispatched_ok, dispatch.
  rewrite (handler_entry _ _ _ _ _ _ _ Hs), (handler_nil _ _ _ _ _ _ Hs).
  unfold check. rewrite Hx, print_bind, bind_Return, report_line. reflexivity.
Qed.

(** C6: the run yields the model once for every constraint type of an
    enabled model whose dispatch returns, whatever the counts were: as many
    yields of a model as it has such constraint types, and [N] yields for [N]
    enabled models with one successfully dispatched constraint type each. *)
Theorem one_yield_per_successful_dispatch
    (self : SchemaTester) (compiler : Compiler) (schemas : schemas_t) :
  let ys := yields (trace (validate_schema self schemas compiler)) in
  let done := filter (dispatched_ok self) (reached self (work_items compiler schemas)) in
  ys = map item_model done
  /\ (forall m : ModelIdentifier,
        count_occ model_eq_dec ys m
        = length (filter (fun it => model_eqb (item_model it) m) done))
  /\ ((forall it, In it (work_items compiler schemas) -> dispatched_ok self it = true) ->
      ys = map item_model (work_items compiler schemas)
      /\ ((forall mc, In mc (enabled_models compiler schemas) -> length (snd mc) = 1) ->
          length ys = length (enabled_models compiler schemas)))
  /\ (forall (model : ModelIdentifier) (ct : string) (x : entry) (line sql : string)
             (tr : list event) (n : Z),
        synthesized self model ct x = Some (line, sql) ->
        execute_query self model sql = (tr, Return n) ->
        dispatched_ok self (model, ct, [x]) = true).
Proof.
  intros ys done.
  assert (Hys : ys = map item_model done).
  { unfold ys, done. rewrite validate_schema_items. apply yields_run_items. }
  split; [exact Hys|]. split; [|split].
  - intros m. rewrite Hys. apply count_occ_map_filter.
  - intros Hall.
    assert (Hall' : ys = map item_model (work_items compiler schemas)).
    { rewrite Hys. unfold done. now rewrite reached_all_ok. }
    split; [exact Hall'|].
    intros Hone. rewrite Hall', length_map, work_items_enabled_models.
    now apply length_flat_map_singletons.
  - intros model ct x line sql tr n. apply single_check_dispatched_ok.
Qed.

Lemma one_yield_per_successful_dispatch_witness :
  (forall it, In it (work_items all_but_drafts schemas_three_checks) ->
              dispatched_ok (tester_counting 7) it = true)
  /\ yields (trace (validate_schema (tester_counting 7) schemas_three_checks all_but_drafts))
     = [("core", "people"); ("core", "people"); ("core", "accounts")].
Proof.
  assert (H : forall it, In it (work_items all_but_drafts schemas_three_checks) ->
                         dispatched_ok (tester_counting 7) it = true).
  { intros it [<-|[<-|[<-|[]]]]; reflexivity. }
  split; [exact H|].
  rewrite (proj1 (proj1 (proj2 (proj2 (one_yield_per_successful_dispatch
                                         (tester_counting 7) all_but_drafts
                                         schemas_three_checks))) H)).
  reflexivity.
Defined.

(** ** Disabled models *)

Lemma work_items_enabled (compiler : Compiler) (schemas : schemas_t) (it : item) :
  In it (work_items compiler schemas) ->
  enabled compiler (fst (item_model it)) (snd (item_model it)) = true.
Proof.
  unfold work_items. rewrite in_flat_map. intros [[g ms] [_ Hin]].
  cbn [fst snd] in Hin. rewrite in_flat_map in Hin. destruct Hin as [[n cs] [_ Hin]].
  unfold model_items in Hin. cbn [fst snd] in Hin.
  destruct (enabled compiler g n) eqn:E; [|contradiction].
  rewrite in_map_iff in Hin. destruct Hin as [c [<- _]]. exact E.
Qed.

Lemma work_items_drop_model (compiler : Compiler) (schemas : schemas_t) (g n : string) :
  enabled compiler g n = false ->
  work_items compiler (drop_model g n schemas) = work_items compiler schemas.
Proof.
  intros Hoff. unfold work_items, drop_model.
  induction schemas as [|[g' ms] schemas IH]; [reflexivity|].
  cbn [map flat_map fst snd]. rewrite IH. f_equal.
  induction ms as [|[n' cs] ms IHms]; [reflexivity|].
  cbn [filter flat_map fst snd].
  destruct (model_eqb (g', n') (g, n)) eqn:E; cbn [negb flat_map].
  - apply model_eqb_eq in E. injection E as -> ->.
    unfold model_items at 2. cbn [fst]. rewrite Hoff. exact IHms.
  - now rewrite IHms.
Qed.

Lemma In_yields (tr : list event) (m : ModelIdentifier) :
  In (Yield m) tr <-> In m (yields tr).
Proof.
  induction tr as [|ev tr IH]; [easy|].
  destruct ev; cbn; rewrite <- IH; split; intros H;
    try (destruct H as [H|H]; [discriminate|exact H]); auto.
  - destruct H as [H|H]; [injection H as ->; now left|now right].
  - destruct H as [->|H]; [now left|now right].
Qed.

(** C9: a model the compiler reports as not enabled is skipped: the run is
    the run of the snapshot without it, none of its constraints is
    dispatched, and it is never yielded. *)
Theorem disabled_model_skipped
    (self : SchemaTester) (compiler : Compiler) (schemas : schemas_t) (g n : string) :
  enabled compiler g n = false ->
  validate_schema self schemas compiler = validate_schema self (drop_model g n schemas) compiler
  /\ (forall it, In it (work_items compiler schemas) -> item_model it <> (g, n))
  /\ ~ In (Yield (g, n)) (trace (validate_schema self schemas compiler)).
Proof.
  intros Hoff.
  assert (Hitems : forall it, In it (work_items compiler schemas) -> item_model it <> (g, n)).
  { intros it Hin Heq. apply work_items_enabled in Hin. rewrite Heq in Hin.
    cbn in Hin. congruence. }
  split; [|split; [exact Hitems|]].
  - now rewrite !validate_schema_items, work_items_drop_model.
  - rewrite In_yields, validate_schema_items, yields_run_items, in_map_iff.
    intros [it [Heq Hin]]. apply filter_In in Hin. destruct Hin as [Hin _].
    apply reached_incl in Hin. exact (Hitems it Hin Heq).
Qed.

Lemma disabled_model_skipped_witness :
  enabled all_but_drafts "core" "drafts" = false
  /\ validate_schema (tester_counting 7) schemas_three_checks all_but_drafts
     = validate_schema (tester_counting 7)
         [("core", [("people", [("not_null", [EStr "id"]); ("unique", [EStr "id"])]);
                    ("accounts", [("unique", [EStr "id"])])])]
         all_but_drafts.
Proof.
  split; [reflexivity|].
  rewrite (proj1 (disabled_model_skipped (tester_counting 7) all_but_drafts
                    schemas_three_checks "core" "drafts" eq_refl)).
  reflexivity.
Defined.

(** ** The uniqueness statement *)

Lemma same_key_eq (a b : SQL.value) : SQL.same_key a b = true <-> a = b.
Proof.
  destruct a as [x|], b as [y|]; cbn; try easy.
  rewrite Z.eqb_eq. split; congruence.
Qed.

Lemma insert_group_keys (r : SQL.value) (gs : list (SQL.value * list SQL.value))
    (k : SQL.value) :
  In k (map fst (SQL.insert_group r gs)) <-> k = r \/ In k (map fst gs).
Proof.
  induction gs as [|[k0 g0] gs IH]; cbn.
  - intuition.
  - destruct (SQL.same_key k0 r) eqn:E; cbn.
    + apply same_key_eq in E. subst k0. intuition.
    + rewrite IH. intuition.
Qed.

Lemma insert_group_NoDup (r : SQL.value) (gs : list (SQL.value * list SQL.value)) :
  NoDup (map fst gs) -> NoDup (map fst (SQL.insert_group r gs)).
Proof.
  induction gs as [|[k0 g0] gs IH]; cbn; intros Hnd.
  - constructor; [easy|constructor].
  - inversion Hnd as [|? ? Hnotin Hnd']; subst.
    destruct (SQL.same_key k0 r) eqn:E; cbn.
    + constructor; assumption.
    + constructor; [|now apply IH].
      rewrite insert_group_keys. intros [->|Hin]; [|contradiction].
      assert (SQL.same_key r r = true) by now apply same_key_eq.
      congruence.
Qed.

(** Where a group of [insert_group r gs] comes from. *)
Lemma insert_group_groups (r : SQL.value) (gs : list (SQL.value * list SQL.value))
    (k : SQL.value) (g : list SQL.value) :
  NoDup (map fst gs) ->
  In (k, g) (SQL.insert_group r gs) ->
  (k <> r /\ In (k, g) gs)
  \/ (k = r /\ exists g', g = r :: g' /\ In (r, g') gs)
  \/ (k = r /\ g = [r] /\ ~ In r (map fst gs)).
Proof.
  induction gs as [|[k0 g0] gs IH]; cbn; intros Hnd Hin.
  - destruct Hin as [Heq|[]]. injection Heq as <- <-. right. right. auto.
  - inversion Hnd as [|? ? Hnotin Hnd']; subst.
    destruct (SQL.same_key k0 r) eqn:E; cbn in Hin.
    + apply same_key_eq in E. subst k0. destruct Hin as [Heq|Hin].
      * injection Heq as <- <-. right. left. split; [reflexivity|].
        exists g0. auto.
      * left. split; [|now right].
        intros ->. apply Hnotin. apply in_map_iff. exists (r, g). auto.
    + destruct Hin as [Heq|Hin].
      * injection Heq as <- <-. left. split; [|now left].
        intros ->. assert (SQL.same_key r r = true) by now apply same_key_eq.
        congruence.
      * destruct (IH Hnd' Hin) as [[Hne Hin']|[[-> [g' [-> Hin']]]|[-> [-> Hnot]]]].
        -- left. auto.
        -- right. left. split; [reflexivity|]. exists g'. auto.
        -- right. right. split; [reflexivity|]. split; [reflexivity|].
           intros [Heq|Hin']; [|contradiction]. subst k0.
           assert (SQL.same_key r r = true) by now apply same_key_eq.
           congruence.
Qed.

(** The groups of [group by]: one per distinct value, holding as many rows
    as the value has occurrences. *)
Lemma group_by_spec (rows : list SQL.value) :
  NoDup (map fst (SQL.group_by rows))
  /\ (forall k, In k (map fst (SQL.group_by rows)) <-> In k rows)
  /\ (forall k g, In (k, g) (SQL.group_by rows) ->
                  length g = count_occ value_eq_dec rows k).
Proof.
  induction rows as [|r rows [IHnd [IHkeys IHsize]]]; cbn [SQL.group_by].
  - split; [constructor|]. split; [cbn; tauto|]. intros k g [].
  - split; [now apply insert_group_NoDup|]. split.
    + intros k. rewrite insert_group_keys, IHkeys. cbn. intuition.
    + intros k g Hin.
      destruct (insert_group_groups _ _ _ _ IHnd Hin)
        as [[Hne Hin']|[[-> [g' [-> Hin']]]|[-> [-> Hnot]]]].
      * rewrite count_occ_cons_neq by congruence. now apply IHsize.
      * rewrite count_occ_cons_eq by reflexivity. cbn. f_equal. now apply IHsize.
      * rewrite count_occ_cons_eq by reflexivity. cbn. f_equal.
        symmetry. apply count_occ_not_In. now rewrite <- IHkeys.
Qed.

Lemma filter_length_perm {A} (f : A -> bool) (l l' : list A) :
  Permutation l l' -> length (filter f l) = length (filter f l').
Proof.
  induction 1 as [|x l l' _ IH|x y l|l l' l'' _ IH1 _ IH2]; cbn.
  - reflexivity.
  - destruct (f x); cbn; now rewrite IH.
  - destruct (f x), (f y); reflexivity.
  - now rewrite IH1.
Qed.

Lemma filter_groups_keys (P : list SQL.value -> bool) (Q : SQL.value -> bool)
    (gs : list (SQL.value * list SQL.value)) :
  (forall k g, In (k, g) gs -> P g = Q k) ->
  length (filter (fun kg => P (snd kg)) gs) = length (filter Q (map fst gs)).
Proof.
  induction gs as [|[k g] gs IH]; intros H; [reflexivity|]. cbn.
  rewrite (H k g) by now left.
  destruct (Q k); cbn; rewrite IH; auto; intros; apply H; now right.
Qed.

Lemma unique_count_duplicate_groups (col : list SQL.value) :
  SQL.unique_count col = Z.of_nat (duplicate_groups col).
Proof.
  unfold SQL.unique_count, SQL.count_star, SQL.having, duplicate_groups.
  destruct (group_by_spec col) as [Hnd [Hkeys Hsize]].
  rewrite length_map. f_equal.
  transitivity (length (filter (fun v => (1 <? count_occ value_eq_dec col v)%nat)
                          (map fst (SQL.group_by col)))).
  - apply (filter_groups_keys (fun g => (1 <? Z.of_nat (length g))%Z)).
    intros k g Hin. rewrite <- (Hsize k g Hin).
    destruct (Nat.ltb_spec 1 (length g)); [apply Z.ltb_lt|apply Z.ltb_ge]; lia.
  - apply filter_length_perm. apply NoDup_Permutation.
    + exact Hnd.
    + apply NoDup_nodup.
    + intros k. now rewrite Hkeys, nodup_In.
Qed.

(** C7: the uniqueness statement for [schema], [table] and [field] returns
    the number of distinct values of the field that occur more than once,
    not the number of rows that hold such a value: the values 1, 1, 2, 3
    give 1. *)
Theorem unique_statement_counts_duplicate_groups
    (self : SchemaTester) (db : SQL.database) (table field : string)
    (validation : list SQL.value) :
  db (cfg_schema (run_environment self)) table field = Some validation ->
  SQL.run_unique db (get_query_params self table (EStr field))
  = Some (Z.of_nat (duplicate_groups validation))
  /\ SQL.unique_count [Some 1; Some 1; Some 2; Some 3]%Z = 1%Z
  /\ duplicate_rows [Some 1; Some 1; Some 2; Some 3]%Z = 2.
Proof.
  intros Hdb. split; [|split; reflexivity].
  unfold SQL.run_unique, get_query_params, SQL.param. cbn [Format.lookup String.eqb Ascii.eqb Bool.eqb str_of_entry].
  now rewrite Hdb, unique_count_duplicate_groups.
Qed.

Lemma unique_statement_counts_duplicate_groups_witness :
  db_people [Some 1; Some 1; Some 2; Some 3]%Z
    (cfg_schema (run_environment (tester_counting 0))) "people" "id"
  = Some [Some 1; Some 1; Some 2; Some 3]%Z
  /\ SQL.run_unique (db_people [Some 1; Some 1; Some 2; Some 3]%Z)
       (get_query_params (tester_counting 0) "people" (EStr "id"))
     = Some 1%Z.
Proof.
  split; [reflexivity|].
  rewrite (proj1 (unique_statement_counts_duplicate_groups (tester_counting 0)
                    (db_people [Some 1; Some 1; Some 2; Some 3]%Z) "people" "id" _ eq_refl)).
  reflexivity.
Defined.

(** ** The referential-integrity statement *)

Lemma in3_no_null (parent : list SQL.value) (x : Z) :
  ~ In None parent ->
  SQL.in3 (Some x) parent
  = if existsb (fun k => if value_eq_dec k (Some x) then true else false) parent
    then SQL.TTrue else SQL.TFalse.
Proof.
  induction parent as [|k parent IH]; intros Hnn; [reflexivity|].
  cbn [SQL.in3 existsb]. rewrite IH by (intros H; apply Hnn; now right).
  destruct k as [y|]; [|exfalso; apply Hnn; now left].
  cbn [SQL.eq3]. destruct (value_eq_dec (Some y) (Some x)) as [E|E].
  - injection E as ->. rewrite Z.eqb_refl. cbn.
    destruct (existsb _ parent); reflexivity.
  - destruct (Z.eqb_spec x y) as [->|_]; [congruence|].
    cbn. destruct (existsb _ parent); reflexivity.
Qed.

Lemma in3_null_parent (parent : list SQL.value) (v : SQL.value) :
  In None parent -> SQL.in3 v parent <> SQL.TFalse.
Proof.
  induction parent as [|k parent IH]; intros Hin; [destruct Hin|].
  cbn [SQL.in3]. destruct Hin as [->|Hin].
  - destruct v; cbn; destruct (SQL.in3 _ parent); discriminate.
  - specialize (IH Hin).
    destruct (SQL.eq3 v k), (SQL.in3 v parent); cbn; congruence.
Qed.

(** Without a NULL among the parent keys the statement counts the orphans. *)
Lemma referential_integrity_count_orphans (parent child : list SQL.value) :
  ~ In None parent ->
  SQL.referential_integrity_count parent child = Z.of_nat (orphans parent child).
Proof.
  intros Hnn. unfold SQL.referential_integrity_count, SQL.count_star, SQL.where_, orphans.
  f_equal. f_equal. apply filter_ext.
  intros [x|]; [|cbn; destruct (SQL.in3 None parent); reflexivity].
  rewrite (in3_no_null _ _ Hnn). unfold absent.
  destruct (existsb _ parent); reflexivity.
Qed.

(** With a NULL among the parent keys the statement counts nothing. *)
Lemma referential_integrity_count_null_parent (parent child : list SQL.value) :
  In None parent -> SQL.referential_integrity_count parent child = 0%Z.
Proof.
  intros Hin. unfold SQL.referential_integrity_count, SQL.count_star, SQL.where_.
  replace (filter _ child) with (@nil SQL.value); [reflexivity|].
  symmetry. induction child as [|v child IH]; [reflexivity|]. cbn [filter].
  pose proof (in3_null_parent parent v Hin) as Hne.
  destruct (SQL.in3 v parent); [| congruence |]; destruct v; cbn; exact IH.
Qed.

(** C8: evaluated where it fails.  The parent keys are 1 and NULL, the child
    holds 4: one non-null child value is absent from the parent keys, and
    the statement counts none, as it does for any child once a parent key is
    NULL.  On the specification's own example (no NULL parent key) the count
    is 1. *)
Theorem null_parent_key_hides_orphans :
  SQL.run_referential_integrity
    (db_orders_customers [Some 4%Z] [Some 1%Z; None])
    (reference_params "analytics" "customers" "id" "orders" "customer_id")
  = Some 0%Z
  /\ orphans [Some 1%Z; None] [Some 4%Z] = 1
  /\ (forall parent child,
        In None parent -> SQL.referential_integrity_count parent child = 0%Z)
  /\ SQL.referential_integrity_count [Some 1; Some 2; Some 3]%Z [Some 1; Some 2; Some 4; None]%Z
     = 1%Z.
Proof.
  split; [reflexivity|]. split; [reflexivity|]. split; [|reflexivity].
  exact referential_integrity_count_null_parent.
Qed.

Lemma null_parent_key_hides_orphans_witness :
  In None [Some 1%Z; None]
  /\ SQL.referential_integrity_count [Some 1%Z; None] [Some 4%Z; Some 5%Z; None] = 0%Z.
Proof.
  split; [right; left; reflexivity|].
  apply (proj1 (proj2 (proj2 null_parent_key_hides_orphans))).
  right; left; reflexivity.
Defined.

(** What [validate_relationships] asks of the warehouse for a reference
    descriptor: the model's table and its [from] field are the parent, the
    referenced table [to] with its [field] is the child.  The rows counted
    are rows of the referenced table, those whose value is not NULL and does
    not occur among the model's [from] values (for a [from] column without
    NULL). *)
Lemma relationships_model_is_parent
    (self : SchemaTester) (db : SQL.database) (table : string)
    (d : list (string * string)) (r_from r_to r_field : string)
    (model_from referenced_field : list SQL.value) :
  Format.lookup "from" d = Some r_from ->
  Format.lookup "to" d = Some r_to ->
  Format.lookup "field" d = Some r_field ->
  db (cfg_schema (run_environment self)) table r_from = Some model_from ->
  db (cfg_schema (run_environment self)) r_to r_field = Some referenced_field ->
  let params := reference_params (cfg_schema (run_environment self)) table
                  r_from r_to r_field in
  relationships_params self table (EDict d) = ret params
  /\ SQL.run_referential_integrity db params
     = Some (SQL.referential_integrity_count model_from referenced_field)
  /\ (~ In None model_from ->
      SQL.run_referential_integrity db params
      = Some (Z.of_nat (orphans model_from referenced_field))).
Proof.
  intros Hfrom Hto Hfield Hparent Hchild params.
  assert (Hrun : SQL.run_referential_integrity db params
                 = Some (SQL.referential_integrity_count model_from referenced_field)).
  { unfold SQL.run_referential_integrity, params, reference_params, SQL.param.
    cbn [Format.lookup String.eqb Ascii.eqb Bool.eqb]. now rewrite Hparent, Hchild. }
  split; [|split; [exact Hrun|]].
  - unfold relationships_params, getitem. rewrite Hfrom, Hto, Hfield.
    rewrite !bind_ret_l. reflexivity.
  - intros Hnn. now rewrite Hrun, referential_integrity_count_orphans.
Qed.

Lemma relationships_model_is_parent_witness :
  (Format.lookup "from" orders_reference = Some "customer_id"
   /\ Format.lookup "to" orders_reference = Some "customers"
   /\ Format.lookup "field" orders_reference = Some "id"
   /\ db_orders_customers [Some 1; Some 4]%Z [Some 1; Some 5; None]%Z
        (cfg_schema (run_environment (tester_counting 0))) "orders" "customer_id"
      = Some [Some 1; Some 4]%Z
   /\ db_orders_customers [Some 1; Some 4]%Z [Some 1; Some 5; None]%Z
        (cfg_schema (run_environment (tester_counting 0))) "customers" "id"
      = Some [Some 1; Some 5; None]%Z
   /\ ~ In None [Some 1; Some 4]%Z)
  /\ SQL.run_referential_integrity
       (db_orders_customers [Some 1; Some 4]%Z [Some 1; Some 5; None]%Z)
       (reference_params "analytics" "orders" "customer_id" "customers" "id")
     = Some 1%Z.
Proof.
  assert (Hnn : ~ In None [Some 1; Some 4]%Z).
  { intros [H|[H|[]]]; discriminate. }
  split; [repeat split; try reflexivity; exact Hnn|].
  exact (proj2 (proj2 (relationships_model_is_parent (tester_counting 0)
                         (db_orders_customers [Some 1; Some 4]%Z [Some 1; Some 5; None]%Z)
                         "orders" orders_reference _ _ _ _ _
                         eq_refl eq_refl eq_refl eq_refl eq_refl)) Hnn).
Defined.

(** C2: evaluated where it fails.  The descriptor goes from
    [orders.customer_id] to [customers.id].  With the order values 1, 4 and
    the customer key 1, the order value 4 has no customer, and the statement
    built for the descriptor counts no violation; with the customer keys 1,
    4, 5 every order value has its customer, and the statement counts one
    violation, the customer 5 that no order names.  The parameters give the
    model the parent role and the referenced table the child role. *)
Theorem relationships_model_is_not_child :
  relationships_params (tester_counting 0) "orders" (EDict orders_reference)
  = ret [("schema", "analytics");
         ("parent_table", "orders"); ("parent_field", "customer_id");
         ("child_table", "customers"); ("child_field", "id")]
  /\ orphans [Some 1%Z] [Some 1%Z; Some 4%Z] = 1
  /\ SQL.run_referential_integrity
       (db_orders_customers [Some 1; Some 4]%Z [Some 1%Z])
       (reference_params "analytics" "orders" "customer_id" "customers" "id")
     = Some 0%Z
  /\ orphans [Some 1; Some 4; Some 5]%Z [Some 1; Some 4]%Z = 0
  /\ SQL.run_referential_integrity
       (db_orders_customers [Some 1; Some 4]%Z [Some 1; Some 4; Some 5]%Z)
       (reference_params "analytics" "orders" "customer_id" "customers" "id")
     = Some 1%Z.
Proof. repeat split; reflexivity. Qed.

(** * Further properties of the code *)

(** ** The not-null statement *)

Lemma not_null_count_occ (col : list SQL.value) :
  SQL.not_null_count col = Z.of_nat (count_occ value_eq_dec col None).
Proof.
  unfold SQL.not_null_count, SQL.count_star, SQL.where_. f_equal.
  induction col as [|v col IH]; [reflexivity|].
  destruct v as [x|]; cbn [filter SQL.is_null].
  - rewrite count_occ_cons_neq by discriminate. exact IH.
  - rewrite count_occ_cons_eq by reflexivity. cbn. now rewrite IH.
Qed.

(** X1: the not-null statement for a table and a field returns the number of
    rows whose field is NULL; it returns 0 exactly when no row is NULL. *)
Theorem not_null_statement_counts_null_rows
    (self : SchemaTester) (db : SQL.database) (table field : string)
    (col : list SQL.value) :
  db (cfg_schema (run_environment self)) table field = Some col ->
  SQL.run_not_null db (get_query_params self table (EStr field))
  = Some (Z.of_nat (count_occ value_eq_dec col None))
  /\ (SQL.run_not_null db (get_query_params self table (EStr field)) = Some 0%Z
      <-> ~ In None col).
Proof.
  intros Hdb.
  assert (Hrun : SQL.run_not_null db (get_query_params self table (EStr field))
                 = Some (Z.of_nat (count_occ value_eq_dec col None))).
  { unfold SQL.run_not_null, get_query_params, SQL.param.
    cbn [Format.lookup String.eqb Ascii.eqb Bool.eqb str_of_entry].
    now rewrite Hdb, not_null_count_occ. }
  split; [exact Hrun|]. rewrite Hrun. split.
  - intros H. injection H as H. apply (count_occ_not_In value_eq_dec). lia.
  - intros H. apply (count_occ_not_In value_eq_dec) in H. now rewrite H.
Qed.

Lemma not_null_statement_counts_null_rows_witness :
  db_people [Some 3; None; Some 3; None]%Z
    (cfg_schema (run_environment (tester_counting 0))) "people" "email"
  = Some [Some 3; None; Some 3; None]%Z
  /\ SQL.run_not_null (db_people [Some 3; None; Some 3; None]%Z)
       (get_query_params (tester_counting 0) "people" (EStr "email"))
     = Some 2%Z.
Proof.
  split; [reflexivity|].
  exact (proj1 (not_null_statement_counts_null_rows (tester_counting 0)
                  (db_people [Some 3; None; Some 3; None]%Z) "people" "email" _ eq_refl)).
Defined.

(** ** More on the uniqueness statement *)

Lemma filter_nil_iff {A} (f : A -> bool) (l : list A) :
  filter f l = [] <-> (forall x, In x l -> f x = false).
Proof.
  induction l as [|a l IH]; cbn.
  - split; [intros _ x []|reflexivity].
  - destruct (f a) eqn:E; split.
    + discriminate.
    + intros H. specialize (H a (or_introl eq_refl)). congruence.
    + intros H x [<-|Hin]; [exact E|now apply IH].
    + intros H. apply IH. intros x Hin. apply H. now right.
Qed.

Lemma duplicate_groups_zero (col : list SQL.value) :
  duplicate_groups col = 0 <-> NoDup col.
Proof.
  unfold duplicate_groups. rewrite length_zero_iff_nil, filter_nil_iff.
  rewrite (NoDup_count_occ value_eq_dec). split.
  - intros H x. destruct (in_dec value_eq_dec x col) as [Hin|Hnin].
    + apply (nodup_In value_eq_dec) in Hin. specialize (H x Hin).
      apply Nat.ltb_ge in H. exact H.
    + apply (count_occ_not_In value_eq_dec) in Hnin. lia.
  - intros H x _. apply Nat.ltb_ge. apply H.
Qed.

(** X2: the uniqueness statement returns 0 exactly when no value of the
    column occurs twice, NULL counting as a value like any other: two NULL
    rows are a violation. *)
Theorem unique_count_zero_iff_NoDup (col : list SQL.value) :
  SQL.unique_count col = 0%Z <-> NoDup col.
Proof.
  rewrite unique_count_duplicate_groups, <- duplicate_groups_zero. lia.
Qed.

Lemma insert_group_total (r : SQL.value) (gs : list (SQL.value * list SQL.value)) :
  length (concat (map snd (SQL.insert_group r gs)))
  = S (length (concat (map snd gs))).
Proof.
  induction gs as [|[k g] gs IH]; [reflexivity|]. cbn [SQL.insert_group].
  destruct (SQL.same_key k r); cbn [map snd concat].
  - reflexivity.
  - rewrite !length_app, IH. lia.
Qed.

Lemma group_by_total (rows : list SQL.value) :
  length (concat (map snd (SQL.group_by rows))) = length rows.
Proof.
  induction rows as [|r rows IH]; [reflexivity|].
  cbn [SQL.group_by]. rewrite insert_group_total, IH. reflexivity.
Qed.

Lemma having_pairs_bound (gs : list (SQL.value * list SQL.value)) :
  2 * length (SQL.having (fun g => (1 <? SQL.count_star g)%Z) gs)
  <= length (concat (map snd gs)).
Proof.
  unfold SQL.having, SQL.count_star.
  induction gs as [|[k g] gs IH]; [cbn; lia|].
  cbn [filter map snd concat]. rewrite length_app.
  destruct (Z.ltb_spec 1 (Z.of_nat (length g))); cbn [length]; lia.
Qed.

(** X3: the uniqueness statement never returns more than half the number of
    rows: every value it counts takes at least two rows. *)
Theorem unique_count_at_most_half (col : list SQL.value) :
  (0 <= SQL.unique_count col /\ 2 * SQL.unique_count col <= Z.of_nat (length col))%Z.
Proof.
  unfold SQL.unique_count. unfold SQL.count_star at 1 3. rewrite length_map.
  pose proof (having_pairs_bound (SQL.group_by col)) as H.
  rewrite group_by_total in H. lia.
Qed.

(** ** More on the referential-integrity statement *)

Lemma filter_length_le {A} (f g : A -> bool) (l : list A) :
  (forall x, f x = true -> g x = true) ->
  length (filter f l) <= length (filter g l).
Proof.
  intros H. induction l as [|a l IH]; [reflexivity|]. cbn.
  destruct (f a) eqn:E.
  - rewrite (H a E). cbn. lia.
  - destruct (g a); cbn; lia.
Qed.

(** X4: whatever the parent column holds, the referential-integrity
    statement counts non-null child rows only, so its result lies between 0
    and the number of non-null child rows; on an empty parent it is that
    number. *)
Theorem referential_integrity_count_bounds (parent child : list SQL.value) :
  (0 <= SQL.referential_integrity_count parent child <= Z.of_nat (non_null_rows child))%Z
  /\ SQL.referential_integrity_count [] child = Z.of_nat (non_null_rows child).
Proof.
  split.
  - unfold SQL.referential_integrity_count, SQL.count_star, SQL.where_, non_null_rows.
    split; [lia|]. apply inj_le. apply filter_length_le.
    intros [x|] H; [reflexivity|].
    cbn in H. destruct (SQL.in3 None parent); discriminate.
  - rewrite referential_integrity_count_orphans by (intros []).
    reflexivity.
Qed.

Lemma orphans_zero (keys rows : list SQL.value) :
  orphans keys rows = 0 <-> (forall x, In (Some x) rows -> In (Some x) keys).
Proof.
  unfold orphans. rewrite length_zero_iff_nil, filter_nil_iff. split.
  - intros H x Hin. specialize (H (Some x) Hin). unfold absent in H.
    apply negb_false_iff, existsb_exists in H. destruct H as [k [Hk E]].
    destruct (value_eq_dec k (Some x)) as [->|]; [exact Hk|discriminate].
  - intros H [x|] Hin; [|reflexivity]. unfold absent.
    apply negb_false_iff, existsb_exists. exists (Some x). split; [now apply H|].
    destruct (value_eq_dec (Some x) (Some x)); [reflexivity|contradiction].
Qed.

(** X5: when no parent key is NULL, the referential-integrity statement
    returns 0 exactly when every non-null child value is among the parent
    keys. *)
Theorem referential_integrity_zero_iff_included (parent child : list SQL.value) :
  ~ In None parent ->
  (SQL.referential_integrity_count parent child = 0%Z
   <-> forall x, In (Some x) child -> In (Some x) parent).
Proof.
  intros Hnn. rewrite (referential_integrity_count_orphans _ _ Hnn), <- orphans_zero. lia.
Qed.

Lemma referential_integrity_zero_iff_included_witness :
  ~ In None [Some 1; Some 2; Some 3]%Z
  /\ SQL.referential_integrity_count [Some 1; Some 2; Some 3]%Z [Some 2; None; Some 1]%Z
     = 0%Z.
Proof.
  assert (Hnn : ~ In None [Some 1; Some 2; Some 3]%Z).
  { intros [H|[H|[H|[]]]]; discriminate. }
  split; [exact Hnn|].
  apply (proj2 (referential_integrity_zero_iff_included _ _ Hnn)).
  intros x [H|[H|[H|[]]]]; try discriminate; injection H as <-; cbn; auto.
Defined.

(** ** The text of the statements *)

(** X6: for every schema, table and field text, [make_query] succeeds on the
    parameters the handlers build and returns the template with each name
    between its double quotes exactly as given: no character of a name is
    escaped, and a brace in a name is not read as a replacement field. *)
Theorem statements_hold_names_verbatim
    (self : SchemaTester) (table : string) (x : entry) (r_from r_to r_field : string) :
  make_query QUERY_VALIDATE_NOT_NULL (get_query_params self table x)
  = ret (nl +++ "with validation as (" +++ nl
         +++ "  select " +++ dq +++ str_of_entry x +++ dq +++ " as f" +++ nl
         +++ "  from " +++ dq +++ cfg_schema (run_environment self) +++ dq
         +++ "." +++ dq +++ table +++ dq +++ nl
         +++ ")" +++ nl
         +++ "select count(*) from validation where f is null" +++ nl)
  /\ make_query QUERY_VALIDATE_UNIQUE (get_query_params self table x)
     = ret (nl +++ "with validation as (" +++ nl
            +++ "  select " +++ dq +++ str_of_entry x +++ dq +++ " as f" +++ nl
            +++ "  from " +++ dq +++ cfg_schema (run_environment self) +++ dq
            +++ "." +++ dq +++ table +++ dq +++ nl
            +++ ")" +++ nl
            +++ "select count(*) from (" +++ nl
            +++ "  select f from validation group by f having count(*) > 1" +++ nl
            +++ ")" +++ nl)
  /\ (x = EDict [("from", r_from); ("to", r_to); ("field", r_field)] ->
      params <- relationships_params self table x ;;
      make_query QUERY_VALIDATE_REFERENTIAL_INTEGRITY params
      = ret (nl +++ "with parent as (" +++ nl
             +++ "  select " +++ dq +++ r_from +++ dq +++ " as id" +++ nl
             +++ "  from " +++ dq +++ cfg_schema (run_environment self) +++ dq
             +++ "." +++ dq +++ table +++ dq +++ nl
             +++ "), child as (" +++ nl
             +++ "  select " +++ dq +++ r_field +++ dq +++ " as id" +++ nl
             +++ "  from " +++ dq +++ cfg_schema (run_environment self) +++ dq
             +++ "." +++ dq +++ r_to +++ dq +++ nl
             +++ ")" +++ nl
             +++ "select count(*) from child" +++ nl
             +++ "where id not in (select id from parent) and id is not null" +++ nl)).
Proof.
  split; [|split].
  - unfold make_query, lift, ret, get_query_params. vm_compute. reflexivity.
  - unfold make_query, lift, ret, get_query_params. vm_compute. reflexivity.
  - intros ->. unfold make_query, lift, ret, relationships_params. vm_compute. reflexivity.
Qed.

Lemma statements_hold_names_verbatim_witness :
  EDict orders_reference
  = EDict [("from", "customer_id"); ("to", "customers"); ("field", "id")]
  /\ (params <- relationships_params (tester_counting 0) "orders" (EDict orders_reference) ;;
      make_query QUERY_VALIDATE_REFERENTIAL_INTEGRITY params)
     = ret (sql_of QUERY_VALIDATE_REFERENTIAL_INTEGRITY
              (reference_params "analytics" "orders" "customer_id" "customers" "id")).
Proof.
  split; [reflexivity|].
  exact (proj2 (proj2 (statements_hold_names_verbatim (tester_counting 0) "orders"
                         (EDict orders_reference) "customer_id" "customers" "id"))
           eq_refl).
Defined.

(** ** [execute_query]: the handle and the cursor's errors *)

(** X7: when the handle cannot be had, [execute_query] raises the error of
    the attempt as it is, with no model attached, and sends no statement; a
    handler ends on its first entry, after the header line; no run sends a
    statement. *)
Theorem handle_failure_sends_nothing (self : SchemaTester) (e : exn) :
  cfg_type (run_environment self) = "redshift" ->
  get_handle (target self) = Some e ->
  (forall model sql, execute_query self model sql = ([], Raise e))
  /\ (forall model ct x line sql rest,
        synthesized self model ct x = Some (line, sql) ->
        validate_schema_constraint self model ct (x :: rest) = ([Print line], Raise e))
  /\ (forall compiler schemas,
        executed (trace (validate_schema self schemas compiler)) = []).
Proof.
  intros Ht Hh.
  assert (Hx : forall model sql, execute_query self model sql = ([], Raise e)).
  { intros model sql.
    assert (Hg : get_target self = ret (target self))
      by (unfold get_target; now rewrite Ht).
    unfold execute_query. rewrite Hg, bind_ret_l, Hh. reflexivity. }
  split; [exact Hx|]. split.
  - intros model ct x line sql rest Hs.
    exact (handler_entry_raises _ _ _ _ _ _ _ _ _ Hs (Hx model sql)).
  - intros compiler schemas. rewrite validate_schema_items.
    apply run_items_executes_nothing. intros model sql. now rewrite Hx.
Qed.

Lemma handle_failure_sends_nothing_witness :
  (cfg_type (run_environment (tester_unreachable connection_refused)) = "redshift"
   /\ get_handle (target (tester_unreachable connection_refused)) = Some connection_refused)
  /\ execute_query (tester_unreachable connection_refused) people "select 1"
     = ([], Raise connection_refused).
Proof.
  split; [split; reflexivity|].
  apply (proj1 (handle_failure_sends_nothing (tester_unreachable connection_refused)
                  connection_refused eq_refl eq_refl)).
Defined.

(** X8: an error raised by [cursor.execute] leaves [execute_query] after
    the statement was sent, with its class and message unchanged; the model
    is attached when the error is an [Exception], and only then. *)
Theorem cursor_error_keeps_class_and_message
    (self : SchemaTester) (model : ModelIdentifier) (sql : string) (e : exn) :
  connected self ->
  cursor_execute (target self) sql = Some e ->
  exists e',
    execute_query self model sql = ([Execute sql], Raise e')
    /\ exn_class e' = exn_class e
    /\ message e' = message e
    /\ exn_model e' = if isinstance e Exception then Some model else exn_model e.
Proof.
  intros Hc He. rewrite (execute_query_raises _ _ _ _ Hc He).
  destruct (isinstance e Exception); eexists; repeat split; reflexivity.
Qed.

Lemma cursor_error_keeps_class_and_message_witness :
  (connected (tester_raising interrupted)
   /\ cursor_execute (target (tester_raising interrupted)) "select 1" = Some interrupted)
  /\ exists e',
       execute_query (tester_raising interrupted) people "select 1"
       = ([Execute "select 1"], Raise e')
       /\ exn_class e' = KeyboardInterrupt
       /\ message e' = EmptyString
       /\ exn_model e' = None.
Proof.
  split; [repeat split; reflexivity|].
  exact (cursor_error_keeps_class_and_message (tester_raising interrupted) people
           "select 1" interrupted (conj eq_refl eq_refl) eq_refl).
Defined.

(** ** Reference descriptors that are not what the handler expects *)

Lemma validate_relationships_dispatch (self : SchemaTester) (model : ModelIdentifier)
    (cd : list entry) :
  validate_schema_constraint self model "relationships" cd
  = validate_relationships self model cd.
Proof. reflexivity. Qed.

(** X9: the relationships handler indexes each entry with [from], [to] and
    [field], in this order, before it prints or sends anything: a string
    entry raises [TypeError], a dictionary raises [KeyError] for the first
    of the three keys it lacks.  Neither is a [RuntimeError], so the run
    ends there. *)
Theorem malformed_reference_ends_run
    (self : SchemaTester) (model : ModelIdentifier) (rest : list entry) :
  (forall s,
     validate_schema_constraint self model "relationships" (EStr s :: rest)
     = ([], Raise (new_exn TypeError "string indices must be integers, not str")))
  /\ (forall d,
        Format.lookup "from" d = None ->
        validate_schema_constraint self model "relationships" (EDict d :: rest)
        = ([], Raise (new_exn KeyError "from")))
  /\ (forall d r_from,
        Format.lookup "from" d = Some r_from ->
        Format.lookup "to" d = None ->
        validate_schema_constraint self model "relationships" (EDict d :: rest)
        = ([], Raise (new_exn KeyError "to")))
  /\ (forall d r_from r_to,
        Format.lookup "from" d = Some r_from ->
        Format.lookup "to" d = Some r_to ->
        Format.lookup "field" d = None ->
        validate_schema_constraint self model "relationships" (EDict d :: rest)
        = ([], Raise (new_exn KeyError "field")))
  /\ (forall x compiler schemas pre post tr0,
        synthesized self model "relationships" x = None ->
        work_items compiler schemas = pre ++ (model, "relationships", x :: rest) :: post ->
        run_items self pre = (tr0, Return tt) ->
        exists e,
          validate_schema self schemas compiler = (tr0, Raise e)
          /\ isinstance e RuntimeError = false).
Proof.
  assert (H1 : forall s,
             validate_schema_constraint self model "relationships" (EStr s :: rest)
             = ([], Raise (new_exn TypeError "string indices must be integers, not str")))
    by reflexivity.
  assert (H2 : forall d,
             Format.lookup "from" d = None ->
             validate_schema_constraint self model "relationships" (EDict d :: rest)
             = ([], Raise (new_exn KeyError "from"))).
  { intros d Hf. rewrite validate_relationships_dispatch.
    unfold validate_relationships. cbn [for_each].
    unfold relationships_params, getitem. rewrite Hf. reflexivity. }
  assert (H3 : forall d r_from,
             Format.lookup "from" d = Some r_from ->
             Format.lookup "to" d = None ->
             validate_schema_constraint self model "relationships" (EDict d :: rest)
             = ([], Raise (new_exn KeyError "to"))).
  { intros d r_from Hf Ht. rewrite validate_relationships_dispatch.
    unfold validate_relationships. cbn [for_each].
    unfold relationships_params, getitem. rewrite Hf, Ht. reflexivity. }
  assert (H4 : forall d r_from r_to,
             Format.lookup "from" d = Some r_from ->
             Format.lookup "to" d = Some r_to ->
             Format.lookup "field" d = None ->
             validate_schema_constraint self model "relationships" (EDict d :: rest)
             = ([], Raise (new_exn KeyError "field"))).
  { intros d r_from r_to Hf Ht Hd. rewrite validate_relationships_dispatch.
    unfold validate_relationships. cbn [for_each].
    unfold relationships_params, getitem. rewrite Hf, Ht, Hd. reflexivity. }
  repeat (split; [assumption|]).
  intros x compiler schemas pre post tr0 Hs Hw Hpre.
  assert (Hd : exists e,
             dispatch self (model, "relationships", x :: rest) = ([], Raise e)
             /\ isinstance e RuntimeError = false).
  { unfold dispatch. unfold synthesized in Hs. cbn [String.eqb Ascii.eqb Bool.eqb] in Hs.
    destruct x as [s|d].
    - eexists. split; [apply H1|reflexivity].
    - destruct (Format.lookup "from" d) as [r_from|] eqn:Hf.
      2:{ eexists. split; [now apply H2|reflexivity]. }
      destruct (Format.lookup "to" d) as [r_to|] eqn:Ht.
      2:{ eexists. split; [now apply (H3 d r_from)|reflexivity]. }
      destruct (Format.lookup "field" d) as [r_field|] eqn:Hfd; [discriminate|].
      eexists. split; [now apply (H4 d r_from r_to)|reflexivity]. }
  destruct Hd as [e [Hd He]]. exists e. split; [|exact He].
  rewrite (validate_schema_fatal _ _ _ _ _ _ _ _ _ Hw Hpre Hd He).
  now rewrite app_nil_r.
Qed.

Lemma malformed_reference_ends_run_witness :
  Format.lookup "from" [("to", "customers"); ("field", "id")] = None
  /\ validate_schema_constraint (tester_counting 0) ("core", "orders") "relationships"
       [EDict [("to", "customers"); ("field", "id")]; EDict orders_reference]
     = ([], Raise (new_exn KeyError "from")).
Proof.
  split; [reflexivity|].
  exact (proj1 (proj2 (malformed_reference_ends_run (tester_counting 0) ("core", "orders")
                         [EDict orders_reference]))
           [("to", "customers"); ("field", "id")] eq_refl).
Defined.

(** ** Empty payloads *)

Lemma known_constraint_nil (self : SchemaTester) (model : ModelIdentifier) (ct : string) :
  known_constraint ct = true ->
  validate_schema_constraint self model ct [] = ret tt.
Proof.
  unfold known_constraint, validate_schema_constraint, constraint_map.
  cbn [constraint_map_get].
  destruct (String.eqb ct "not_null"); [reflexivity|].
  destruct (String.eqb ct "unique"); [reflexivity|].
  destruct (String.eqb ct "relationships"); [reflexivity|discriminate].
Qed.

Lemma run_items_empty_payloads (self : SchemaTester) (its : list item) :
  (forall it, In it its -> known_constraint (snd (fst it)) = true /\ snd it = []) ->
  run_items self its = (map (fun it => Yield (item_model it)) its, Return tt).
Proof.
  induction its as [|[[model ct] cd] its IH]; intros H; [reflexivity|].
  destruct (H _ (or_introl eq_refl)) as [Hk Hnil]. cbn [fst snd] in Hk, Hnil. subst cd.
  rewrite run_items_cons.
  rewrite (guarded_dispatch_ok self (model, ct, []) []) by (now apply known_constraint_nil).
  rewrite IH by (intros; apply H; now right). reflexivity.
Qed.

(** X10: a constraint with a handler and an empty payload dispatches
    successfully without printing or sending anything, so its model is
    yielded although nothing was checked; a run made of such constraints
    only yields, whatever the target is. *)
Theorem empty_payloads_yield_without_checking
    (self : SchemaTester) (compiler : Compiler) (schemas : schemas_t) :
  (forall it, In it (work_items compiler schemas) ->
              known_constraint (snd (fst it)) = true /\ snd it = []) ->
  validate_schema self schemas compiler
  = (map (fun it => Yield (item_model it)) (work_items compiler schemas), Return tt).
Proof.
  intros H. rewrite validate_schema_items. now apply run_items_empty_payloads.
Qed.

Lemma empty_payloads_yield_without_checking_witness :
  (forall it,
     In it (work_items everything_enabled
              [("core", [("people", [("not_null", []); ("relationships", [])])])]) ->
     known_constraint (snd (fst it)) = true /\ snd it = [])
  /\ validate_schema tester_postgres
       [("core", [("people", [("not_null", []); ("relationships", [])])])]
       everything_enabled
     = ([Yield ("core", "people"); Yield ("core", "people")], Return tt).
Proof.
  assert (H : forall it,
             In it (work_items everything_enabled
                      [("core", [("people", [("not_null", []); ("relationships", [])])])]) ->
             known_constraint (snd (fst it)) = true /\ snd it = []).
  { intros it [<-|[<-|[]]]; split; reflexivity. }
  split; [exact H|].
  exact (empty_payloads_yield_without_checking tester_postgres everything_enabled _ H).
Defined.

(** ** What ends a run, and runs over joined snapshots *)

(** X11: a run never ends with a [RuntimeError]: whatever exception leaves
    [validate_schema] is of another class. *)
Theorem run_never_raises_RuntimeError
    (self : SchemaTester) (compiler : Compiler) (schemas : schemas_t)
    (tr : list event) (e : exn) :
  validate_schema self schemas compiler = (tr, Raise e) ->
  isinstance e RuntimeError = false.
Proof. rewrite validate_schema_items. apply run_items_escape. Qed.

Lemma run_never_raises_RuntimeError_witness :
  validate_schema (tester_raising undefined_column) schemas_two_models everything_enabled
  = ([Print ("VALIDATE NOT NULL " +++ dq +++ "people" +++ dq +++ "." +++ dq +++ "id" +++ dq);
      Execute (sql_of QUERY_VALIDATE_NOT_NULL
                 [("schema", "analytics"); ("table", "people"); ("field", "id")])],
     Raise (set_model undefined_column people))
  /\ isinstance (set_model undefined_column people) RuntimeError = false.
Proof.
  assert (H : validate_schema (tester_raising undefined_column) schemas_two_models
                everything_enabled
              = ([Print ("VALIDATE NOT NULL " +++ dq +++ "people" +++ dq +++ "."
                         +++ dq +++ "id" +++ dq);
                  Execute (sql_of QUERY_VALIDATE_NOT_NULL
                             [("schema", "analytics"); ("table", "people"); ("field", "id")])],
                 Raise (set_model undefined_column people)))
    by (vm_compute; reflexivity).
  split; [exact H|].
  exact (run_never_raises_RuntimeError _ _ _ _ _ H).
Defined.



(** ** A handler on a warehouse that answers *)

Lemma printed_app (a b : list event) : printed (a ++ b) = printed a ++ printed b.
Proof.
  induction a as [|ev a IH]; [reflexivity|].
  destruct ev; cbn [app printed]; now rewrite IH.
Qed.

Lemma check_answered (self : SchemaTester) (model : ModelIdentifier) (line sql : string) :
  answering self ->
  exists n,
    check self model line sql
    = ([Print line; Execute sql;
        Print (if (n =? 0)%Z then "  OK" else "  FAILED (" +++ PyStr.str_of_Z n +++ ")")],
       Return tt).
Proof.
  intros [Hc [He Hf]]. destruct (Hf sql) as [n Hn]. exists n.
  unfold check. rewrite (execute_query_count _ _ _ _ Hc (He sql) Hn).
  rewrite print_bind, bind_Return, report_line. reflexivity.
Qed.

(** X13: on a warehouse that executes every statement and answers it with
    one count, a handler given well-formed entries returns normally
    whatever the counts are; it has sent exactly one statement per entry, in
    the order of the payload, printed two lines per entry and yielded
    nothing itself. *)
Theorem answered_handler_checks_every_entry
    (self : SchemaTester) (model : ModelIdentifier) (ct : string) (cd : list entry) :
  answering self ->
  known_constraint ct = true ->
  forallb (well_formed_entry self model ct) cd = true ->
  result (validate_schema_constraint self model ct cd) = Return tt
  /\ executed (trace (validate_schema_constraint self model ct cd))
     = map (statement_of self model ct) cd
  /\ length (printed (trace (validate_schema_constraint self model ct cd)))
     = 2 * length cd
  /\ yields (trace (validate_schema_constraint self model ct cd)) = [].
Proof.
  intros Ha Hk. induction cd as [|x cd IH]; intros Hwf.
  - rewrite (known_constraint_nil _ _ _ Hk). repeat split; reflexivity.
  - cbn [forallb] in Hwf. apply andb_true_iff in Hwf. destruct Hwf as [Hx Hcd].
    destruct (IH Hcd) as [IHr [IHe [IHp IHy]]].
    unfold well_formed_entry in Hx. unfold statement_of at 1.
    destruct (synthesized self model ct x) as [[line sql]|] eqn:Hs; [|discriminate].
    rewrite (handler_entry _ _ _ _ _ _ _ Hs).
    destruct (check_answered self model line sql Ha) as [n Hn]. rewrite Hn, bind_Return.
    unfold prefix, trace, result in *. cbn [fst snd].
    rewrite executed_app, printed_app, yields_app, length_app, IHe, IHp, IHy.
    cbn [map]. rewrite Hs. repeat split; try assumption; try reflexivity.
    cbn. lia.
Qed.

Lemma answering_tester_counting (n : Z) : answering (tester_counting n).
Proof.
  split; [split; reflexivity|]. split; [reflexivity|]. intros sql. now exists n.
Defined.

Lemma answered_handler_checks_every_entry_witness :
  (answering (tester_counting 5)
   /\ known_constraint "not_null" = true
   /\ forallb (well_formed_entry (tester_counting 5) people "not_null")
        [EStr "id"; EStr "email"] = true)
  /\ executed (trace (validate_schema_constraint (tester_counting 5) people "not_null"
                        [EStr "id"; EStr "email"]))
     = [statement_of (tester_counting 5) people "not_null" (EStr "id");
        statement_of (tester_counting 5) people "not_null" (EStr "email")].
Proof.
  split; [split; [apply answering_tester_counting|split; reflexivity]|].
  exact (proj1 (proj2 (answered_handler_checks_every_entry (tester_counting 5) people
                         "not_null" [EStr "id"; EStr "email"]
                         (answering_tester_counting 5) eq_refl eq_refl))).
Defined.

(** ** The model group plays no part in a check *)

Lemma agree_refl {A} (m : M A) : agree m m.
Proof. split; [reflexivity|]. destruct (snd m); auto. Qed.

Lemma agree_bind {A B} (m1 m2 : M A) (k1 k2 : A -> M B) :
  agree m1 m2 -> (forall a, agree (k1 a) (k2 a)) -> agree (bind m1 k1) (bind m2 k2).
Proof.
  destruct m1 as [tr1 [a1|e1]], m2 as [tr2 [a2|e2]]; intros [Ht Hr] Hk;
    cbn [fst snd] in Ht, Hr; subst; try contradiction.
  - specialize (Hk a2). cbn. destruct (k1 a2) as [t1 r1], (k2 a2) as [t2 r2].
    destruct Hk as [Ht Hr]. cbn [fst snd] in Ht, Hr. subst. split; [reflexivity|exact Hr].
  - split; [reflexivity|exact Hr].
Qed.

Lemma agree_for_each {A} (l : list A) (b1 b2 : A -> M unit) :
  (forall x, agree (b1 x) (b2 x)) -> agree (for_each l b1) (for_each l b2).
Proof.
  intros H. induction l as [|x l IH]; [apply agree_refl|].
  cbn [for_each]. apply agree_bind; auto.
Qed.

Lemma agree_execute_query (self : SchemaTester) (m1 m2 : ModelIdentifier) (sql : string) :
  agree (execute_query self m1 sql) (execute_query self m2 sql).
Proof.
  unfold execute_query. apply agree_bind; [apply agree_refl|]. intros t.
  destruct (get_handle t); [apply agree_refl|].
  apply agree_bind; [apply agree_refl|]. intros _.
  destruct (cursor_execute t sql) as [e|]; [|apply agree_refl].
  destruct (isinstance e Exception); [|apply agree_refl].
  split; [reflexivity|]. cbn. auto.
Qed.

Ltac agree_steps :=
  first [ apply agree_execute_query
        | apply agree_bind; [agree_steps | intros ?; agree_steps]
        | apply agree_refl ].

(** X14: the statements and lines of a check depend on the model's name
    only: two models of the same name in different groups give the same
    trace for the same constraint, and the one dispatch returns normally
    exactly when the other does. *)
Theorem check_ignores_model_group
    (self : SchemaTester) (g1 g2 n ct : string) (cd : list entry) :
  trace (validate_schema_constraint self (g1, n) ct cd)
  = trace (validate_schema_constraint self (g2, n) ct cd)
  /\ (result (validate_schema_constraint self (g1, n) ct cd) = Return tt
      <-> result (validate_schema_constraint self (g2, n) ct cd) = Return tt).
Proof.
  assert (Hcase : agree (validate_schema_constraint self (g1, n) ct cd)
                        (validate_schema_constraint self (g2, n) ct cd)
                  \/ known_constraint ct = false).
  { unfold known_constraint, validate_schema_constraint, constraint_map.
    cbn [constraint_map_get].
    destruct (String.eqb ct "not_null").
    { left. unfold validate_not_null. cbn [snd]. apply agree_for_each. intros x.
      agree_steps. }
    destruct (String.eqb ct "unique").
    { left. unfold validate_unique. cbn [snd]. apply agree_for_each. intros x.
      agree_steps. }
    destruct (String.eqb ct "relationships"); [|now right].
    left. unfold validate_relationships. cbn [snd]. apply agree_for_each. intros x.
    agree_steps. }
  destruct Hcase as [[Ht Hr]|Hk].
  - split; [exact Ht|]. unfold result.
    destruct (snd (validate_schema_constraint self (g1, n) ct cd)) as [[]|e1],
             (snd (validate_schema_constraint self (g2, n) ct cd)) as [[]|e2];
      try contradiction; split; intros H; try reflexivity; discriminate.
  - unfold known_constraint in Hk. unfold validate_schema_constraint.
    destruct (constraint_map_get ct constraint_map); [discriminate|].
    split; [reflexivity|]. split; discriminate.
Qed.

(** ** Discovery of the schema files *)

Lemma loop_app {A} (l1 l2 : list A) (body : A -> discovery -> discovery * option exn)
    (s : discovery) :
  loop (l1 ++ l2) body s
  = match loop l1 body s with
    | (s', None) => loop l2 body s'
    | (s', Some e) => (s', Some e)
    end.
Proof.
  revert s. induction l1 as [|x l1 IH]; intros s; [reflexivity|].
  cbn [app loop]. destruct (body x s) as [s' [e|]]; [reflexivity|apply IH].
Qed.

Lemma loop_ext {A} (l : list A) (b1 b2 : A -> discovery -> discovery * option exn)
    (s : discovery) :
  (forall x s, b1 x s = b2 x s) -> loop l b1 s = loop l b2 s.
Proof.
  intros H. revert s. induction l as [|x l IH]; intros s; [reflexivity|].
  cbn [loop]. rewrite H. destruct (b2 x s) as [s' [e|]]; [reflexivity|apply IH].
Qed.

Lemma loop_flat_map {A B} (h : A -> list B) (l : list A)
    (body : B -> discovery -> discovery * option exn) (s : discovery) :
  loop (flat_map h l) body s = loop l (fun x => loop (h x) body) s.
Proof.
  revert s. induction l as [|x l IH]; intros s; [reflexivity|].
  cbn [flat_map loop]. rewrite loop_app.
  destruct (loop (h x) body s) as [s' [e|]]; [reflexivity|apply IH].
Qed.

(** The three nested loops store the discovered files one after the other. *)
Lemma project_schemas_discovered (fs : FileSystem) (project : ProjectPaths) :
  project_schemas fs project
  = (fst (fst (loop (discovered fs project) (store fs) ([], []))),
     match snd (loop (discovered fs project) (store fs) ([], [])) with
     | None => Return (snd (fst (loop (discovered fs project) (store fs) ([], []))))
     | Some e => Raise e
     end).
Proof.
  unfold project_schemas.
  set (L := loop (source_paths project) _ _).
  assert (HL : L = loop (discovered fs project) (store fs) ([], [])).
  { subst L. unfold discovered. rewrite loop_flat_map.
    apply loop_ext. intros source_path s.
    rewrite loop_flat_map. apply loop_ext. intros [[root dirs] files] s1.
    rewrite loop_flat_map. apply loop_ext. intros filename s2. cbn [fst snd].
    destruct (String.eqb filename "schema.yml"); [|reflexivity].
    cbn [loop]. unfold store. cbn [fst snd].
    destruct (load fs (path_join fs root filename)); reflexivity. }
  clearbody L. subst L.
  destruct (loop (discovered fs project) (store fs) ([], [])) as [[opened schemas] r].
  reflexivity.
Qed.

Lemma loop_store_ok (fs : FileSystem) (found : list (string * string)) (s : discovery) :
  (forall kf, In kf found -> exists c, load fs (snd kf) = Return c) ->
  loop found (store fs) s
  = ((fst s ++ map snd found,
      fold_left (fun d kf => dict_set (fst kf) (loaded fs (snd kf)) d) found (snd s)),
     None).
Proof.
  revert s. induction found as [|kf found IH]; intros s H.
  - cbn. rewrite app_nil_r. now destruct s.
  - cbn [loop]. destruct (H kf (or_introl eq_refl)) as [c Hc].
    assert (Hl : loaded fs (snd kf) = c) by (unfold loaded; now rewrite Hc).
    unfold store at 1. rewrite Hc.
    rewrite IH by (intros; apply H; now right).
    cbn [fst snd fold_left map]. rewrite Hl, <- app_assoc. reflexivity.
Qed.

Lemma loop_store_opened (fs : FileSystem) (found : list (string * string)) (s : discovery)
    (p : string) :
  In p (fst (fst (loop found (store fs) s))) -> In p (fst s) \/ In p (map snd found).
Proof.
  revert s. induction found as [|kf found IH]; intros s; [cbn; auto|].
  cbn [loop]. unfold store at 1.
  destruct (load fs (snd kf)) as [c|e]; cbn [fst snd map].
  - intros H. apply IH in H. cbn [fst] in H. rewrite in_app_iff in H. cbn in H |- *. tauto.
  - rewrite in_app_iff. cbn. tauto.
Qed.

Lemma dict_get_set {V} (k k' : string) (v : V) (d : list (string * V)) :
  dict_get k (dict_set k' v d) = if String.eqb k k' then Some v else dict_get k d.
Proof.
  induction d as [|[k0 v0] d IH]; [reflexivity|]. cbn [dict_set].
  destruct (String.eqb_spec k' k0) as [->|Hne]; cbn [dict_get].
  - destruct (String.eqb k k0); reflexivity.
  - rewrite IH. destruct (String.eqb_spec k k0) as [->|_]; [|reflexivity].
    destruct (String.eqb_spec k0 k') as [->|_]; [contradiction|reflexivity].
Qed.

Lemma dict_set_keys {V} (k k' : string) (v : V) (d : list (string * V)) :
  In k (map fst (dict_set k' v d)) <-> k = k' \/ In k (map fst d).
Proof.
  induction d as [|[k0 v0] d IH]; cbn; [intuition|].
  destruct (String.eqb_spec k' k0) as [->|Hne]; cbn; [|rewrite IH]; intuition.
Qed.

Lemma dict_set_NoDup {V} (k : string) (v : V) (d : list (string * V)) :
  NoDup (map fst d) -> NoDup (map fst (dict_set k v d)).
Proof.
  induction d as [|[k0 v0] d IH]; cbn; intros Hnd.
  - constructor; [easy|constructor].
  - inversion Hnd as [|? ? Hnotin Hnd']; subst.
    destruct (String.eqb_spec k k0) as [->|Hne]; cbn.
    + constructor; assumption.
    + constructor; [|now apply IH].
      rewrite dict_set_keys. intros [->|Hin]; [congruence|contradiction].
Qed.

Lemma fold_dict_set_NoDup {V} (g : string -> V) (found : list (string * string))
    (d : list (string * V)) :
  NoDup (map fst d) ->
  NoDup (map fst (fold_left (fun d kf => dict_set (fst kf) (g (snd kf)) d) found d)).
Proof.
  revert d. induction found as [|kf found IH]; intros d Hnd; [exact Hnd|].
  cbn [fold_left]. apply IH. now apply dict_set_NoDup.
Qed.

Lemma fold_dict_set_get {V} (g : string -> V) (found : list (string * string))
    (d : list (string * V)) (k : string) :
  dict_get k (fold_left (fun d kf => dict_set (fst kf) (g (snd kf)) d) found d)
  = match last_for k found with
    | Some f => Some (g f)
    | None => dict_get k d
    end.
Proof.
  unfold last_for.
  induction found as [|kf found IH] using rev_ind; [reflexivity|].
  rewrite fold_left_app, rev_app_distr. cbn [fold_left rev app find].
  rewrite dict_get_set. destruct (String.eqb k (fst kf)); [reflexivity|exact IH].
Qed.

Lemma fold_dict_set_keys {V} (g : string -> V) (found : list (string * string))
    (d : list (string * V)) (k : string) :
  In k (map fst (fold_left (fun d kf => dict_set (fst kf) (g (snd kf)) d) found d))
  <-> In k (map fst d) \/ In k (map fst found).
Proof.
  revert d. induction found as [|kf found IH]; intros d; cbn [fold_left map].
  - cbn. tauto.
  - rewrite IH, dict_set_keys. cbn. intuition.
Qed.

(** X15: when every [schema.yml] the walks come upon loads, [project_schemas]
    opens exactly these files, in the order of the walks, and returns a
    dictionary with one entry per parent path: the document of the last
    file discovered for that path.  A path met again, under a later source
    path, replaces the earlier document. *)
Theorem discovered_schemas_last_wins (fs : FileSystem) (project : ProjectPaths) :
  (forall kf, In kf (discovered fs project) -> exists c, load fs (snd kf) = Return c) ->
  exists d,
    project_schemas fs project = (map snd (discovered fs project), Return d)
    /\ NoDup (map fst d)
    /\ (forall k, In k (map fst d) <-> In k (map fst (discovered fs project)))
    /\ (forall k, dict_get k d
                  = option_map (loaded fs) (last_for k (discovered fs project))).
Proof.
  intros Hok.
  exists (fold_left (fun d kf => dict_set (fst kf) (loaded fs (snd kf)) d)
            (discovered fs project) []).
  split; [|split; [|split]].
  - rewrite project_schemas_discovered, (loop_store_ok _ _ _ Hok). reflexivity.
  - apply fold_dict_set_NoDup. constructor.
  - intros k. rewrite fold_dict_set_keys. cbn. tauto.
  - intros k. rewrite fold_dict_set_get.
    destruct (last_for k (discovered fs project)); reflexivity.
Qed.

Lemma discovered_schemas_last_wins_witness :
  (forall kf, In kf (discovered (small_tree EmptyString) small_project) ->
              exists c, load (small_tree EmptyString) (snd kf) = Return c)
  /\ exists d,
       project_schemas (small_tree EmptyString) small_project
       = (["/proj/models/core/schema.yml"; "/proj/extra/core/schema.yml"], Return d)
       /\ dict_get "core" d = Some [("accounts", [("unique", [EStr "id"])])].
Proof.
  assert (H : forall kf, In kf (discovered (small_tree EmptyString) small_project) ->
                         exists c, load (small_tree EmptyString) (snd kf) = Return c).
  { intros kf [<-|[<-|[]]]; eexists; reflexivity. }
  split; [exact H|].
  destruct (discovered_schemas_last_wins (small_tree EmptyString) small_project H)
    as [d [Hd [_ [_ Hget]]]].
  exists d. split; [exact Hd|]. rewrite Hget. reflexivity.
Defined.

(** X16: the first [schema.yml] that cannot be opened or parsed ends
    [project_schemas] with that error: the files discovered before it were
    opened, the ones after it are not. *)
Theorem first_unreadable_schema_ends_discovery
    (fs : FileSystem) (project : ProjectPaths)
    (pre post : list (string * string)) (k f : string) (e : exn) :
  discovered fs project = pre ++ (k, f) :: post ->
  (forall kf, In kf pre -> exists c, load fs (snd kf) = Return c) ->
  load fs f = Raise e ->
  project_schemas fs project = (map snd pre ++ [f], Raise e).
Proof.
  intros Hd Hpre Hf.
  rewrite project_schemas_discovered, Hd, loop_app, (loop_store_ok _ _ _ Hpre).
  cbn [loop].
  assert (Hs : forall s, store fs (k, f) s = ((fst s ++ [f], snd s), Some e)).
  { intros s. unfold store. cbn [fst snd]. now rewrite Hf. }
  rewrite !Hs. reflexivity.
Qed.

Lemma first_unreadable_schema_ends_discovery_witness :
  (discovered (small_tree "/proj/models/core/schema.yml") small_project
   = [] ++ ("core", "/proj/models/core/schema.yml")
        :: [("core", "/proj/extra/core/schema.yml")]
   /\ load (small_tree "/proj/models/core/schema.yml") "/proj/models/core/schema.yml"
      = Raise (new_exn (Subclass "IOError" (Subclass "EnvironmentError" StandardError))
                 "Permission denied"))
  /\ project_schemas (small_tree "/proj/models/core/schema.yml") small_project
     = (["/proj/models/core/schema.yml"],
        Raise (new_exn (Subclass "IOError" (Subclass "EnvironmentError" StandardError))
                 "Permission denied")).
Proof.
  split; [split; reflexivity|].
  exact (first_unreadable_schema_ends_discovery
           (small_tree "/proj/models/core/schema.yml") small_project
           [] [("core", "/proj/extra/core/schema.yml")] "core"
           "/proj/models/core/schema.yml" _ eq_refl (fun kf (H : In kf []) => match H with end)
           eq_refl).
Defined.

Lemma discovered_In (fs : FileSystem) (project : ProjectPaths) (k p : string) :
  In (k, p) (discovered fs project) ->
  exists source_path root dirs files,
    In source_path (source_paths project)
    /\ In (root, dirs, files)
         (walk fs (path_join fs (project_root project) source_path))
    /\ In "schema.yml" files
    /\ p = path_join fs root "schema.yml".
Proof.
  unfold discovered. rewrite in_flat_map. intros [source_path [Hsp Hin]].
  rewrite in_flat_map in Hin. destruct Hin as [[[root dirs] files] [Hw Hin]].
  rewrite in_flat_map in Hin. destruct Hin as [filename [Hf Hin]]. cbn [fst snd] in Hin.
  destruct (String.eqb_spec filename "schema.yml") as [->|_]; [|destruct Hin].
  destruct Hin as [Heq|[]]. injection Heq as _ <-.
  exists source_path, root, dirs, files. auto.
Qed.

(** X17: whatever the file tree holds, [project_schemas] opens no file but
    a [schema.yml] listed by a walk of one of the source paths, under the
    directory that lists it; when the walks list none, it opens nothing and
    returns the empty dictionary. *)
Theorem only_schema_yml_is_opened (fs : FileSystem) (project : ProjectPaths) :
  (forall p, In p (fst (project_schemas fs project)) ->
     exists source_path root dirs files,
       In source_path (source_paths project)
       /\ In (root, dirs, files)
            (walk fs (path_join fs (project_root project) source_path))
       /\ In "schema.yml" files
       /\ p = path_join fs root "schema.yml")
  /\ (discovered fs project = [] -> project_schemas fs project = ([], Return [])).
Proof.
  split.
  - intros p Hp. rewrite project_schemas_discovered in Hp. cbn [fst] in Hp.
    apply loop_store_opened in Hp. destruct Hp as [[]|Hp].
    apply in_map_iff in Hp. destruct Hp as [[k p'] [Heq Hin]]. cbn in Heq. subst p'.
    exact (discovered_In _ _ _ _ Hin).
  - intros Hnone. rewrite project_schemas_discovered, Hnone. reflexivity.
Qed.

Lemma only_schema_yml_is_opened_witness :
  discovered (small_tree EmptyString) (mkProjectPaths ["macros"] "/proj") = []
  /\ project_schemas (small_tree EmptyString) (mkProjectPaths ["macros"] "/proj")
     = ([], Return []).
Proof.
  split; [reflexivity|].
  exact (proj2 (only_schema_yml_is_opened (small_tree EmptyString)
                  (mkProjectPaths ["macros"] "/proj")) eq_refl).
Defined.

(** ** [test] *)



